(** * SpriteForge client: a shallow embedding of the TypeScript front end

    The development follows the source files one by one:
    - [src/types/sprite.ts]              records [Sprite], [GenerateRequest];
    - [src/services/api.ts]              [fetchWithErrorHandling] and the
                                         calls built on it;
    - [src/components/MCPInterface.tsx]  the [tools] table and [executeTool];
    - [src/components/TrainingDataUpload.tsx]  [handleSubmit];
    - [src/App.tsx]                      [handleRatingChange].
    The tag matcher of the recommendation engine, which the client only
    reaches through [/mcp/execute], is written down from its specification
    in [TagMatcher].

    Asynchronous code is written in a small monad [Async]: a computation
    reads the network (what each [fetch] settles to), appends every request
    it issues to a log, and either returns a value or throws.  *)

From stdpp Require Import base strings list gmap pretty.
From Stdlib Require Import Ascii QArith Lqa Sorted.

Local Close Scope Q_scope.
Local Open Scope string_scope.
Local Open Scope list_scope.

(** ** JavaScript values *)

(** What [JSON.parse] can produce.  Numbers are restricted to integers. *)
#[local] Unset Elimination Schemes.
Inductive Json : Type :=
  | JNull
  | JBool (b : bool)
  | JNum (n : Z)
  | JStr (s : string)
  | JArr (l : list Json)
  | JObj (fields : list (string * Json)).
#[local] Set Elimination Schemes.

(** An instance of [Error]: the two members the code reads. *)
Record JsError : Type := { err_name : string; err_message : string }.

(** A value travelling through [throw]/[catch].  [ThrownValue] is anything
    for which [instanceof Error] is false. *)
Inductive Thrown : Type :=
  | ThrownError (e : JsError)
  | ThrownValue.

(** [new Error(msg)] *)
Definition new_Error (msg : string) : JsError :=
  {| err_name := "Error"; err_message := msg |}.

(** Truthiness of a string: only the empty string is falsy. *)
Definition truthy_string (s : string) : bool :=
  match s with EmptyString => false | String _ _ => true end.

(** ToBoolean on a parsed value; [None] stands for [undefined]. *)
Definition truthy (v : option Json) : bool :=
  match v with
  | None | Some JNull => false
  | Some (JBool b) => b
  | Some (JNum n) => negb (n =? 0)%Z
  | Some (JStr s) => truthy_string s
  | Some (JArr _) | Some (JObj _) => true
  end.

Fixpoint join (sep : string) (l : list string) : string :=
  match l with
  | [] => EmptyString
  | [s] => s
  | s :: rest => s ++ sep ++ join sep rest
  end.

(** ToString, as applied by [new Error(v)] and by template literals. *)
Fixpoint js_String (v : Json) : string :=
  match v with
  | JNull => "null"
  | JBool true => "true"
  | JBool false => "false"
  | JNum n => pretty n
  | JStr s => s
  | JArr l =>
      join "," (map (fun x => match x with JNull => EmptyString | _ => js_String x end) l)
  | JObj _ => "[object Object]"
  end.

Fixpoint assoc_get (k : string) (fields : list (string * Json)) : option Json :=
  match fields with
  | [] => None
  | (k', v) :: rest => if String.eqb k k' then Some v else assoc_get k rest
  end.

(** [JSON.parse] keeps the last occurrence of a duplicated key. *)
Definition obj_get (k : string) (fields : list (string * Json)) : option Json :=
  assoc_get k (rev fields).

(** The message V8 gives to the TypeError of [null.prop]. *)
Definition null_member_message (prop : string) : string :=
  "Cannot read properties of null (reading '" ++ prop ++ "')".

(** [v.prop] for one of the member names the client reads ([error],
    [output], ...): a member of the object, [undefined] on the other
    non-null values, a TypeError on [null]. *)
Definition member (prop : string) (v : Json) : Thrown + option Json :=
  match v with
  | JNull =>
      inl (ThrownError {| err_name := "TypeError";
                          err_message := null_member_message prop |})
  | JObj fields => inr (obj_get prop fields)
  | _ => inr None
  end.

(** [err instanceof Error ? err.message : fallback] *)
Definition message_or (fallback : string) (err : Thrown) : string :=
  match err with
  | ThrownError e => err_message e
  | ThrownValue => fallback
  end.

(** [hay.includes(needle)] *)
Fixpoint includes (needle hay : string) : bool :=
  String.prefix needle hay ||
  match hay with
  | EmptyString => false
  | String _ rest => includes needle rest
  end.

(** White space as [String.prototype.trim] sees it, on ASCII text: tab,
    line feed, vertical tab, form feed, carriage return and space. *)
Definition is_js_space (c : ascii) : bool :=
  let n := nat_of_ascii c in
  ((9 <=? n) && (n <=? 13) || (n =? 32))%nat.

Fixpoint trimStart (s : string) : string :=
  match s with
  | EmptyString => EmptyString
  | String c rest => if is_js_space c then trimStart rest else s
  end.

Fixpoint trimEnd (s : string) : string :=
  match s with
  | EmptyString => EmptyString
  | String c rest =>
      match trimEnd rest with
      | EmptyString => if is_js_space c then EmptyString else String c EmptyString
      | rest' => String c rest'
      end
  end.

(** [s.trim()] *)
Definition trim (s : string) : string := trimEnd (trimStart s).

(** [s.toLowerCase()] on ASCII text. *)
Definition js_lower_char (c : ascii) : ascii :=
  let n := nat_of_ascii c in
  if ((65 <=? n) && (n <=? 90))%nat then ascii_of_nat (n + 32) else c.

Fixpoint toLowerCase (s : string) : string :=
  match s with
  | EmptyString => EmptyString
  | String c rest => String (js_lower_char c) (toLowerCase rest)
  end.

(** [s.split(sep)] for a one-character separator. *)
Fixpoint split (sep : ascii) (s : string) : list string :=
  match s with
  | EmptyString => [EmptyString]
  | String c rest =>
      if Ascii.eqb c sep then EmptyString :: split sep rest
      else match split sep rest with
           | piece :: pieces => String c piece :: pieces
           | [] => [String c EmptyString]
           end
  end.

(** ** The network *)

(** The second argument of [fetch]. [signal] holds the delay of an
    [AbortSignal.timeout], in milliseconds. *)
Record RequestInit : Type := {
  method : option string;
  headers : list (string * string);
  body : option Json;          (* the value handed to [JSON.stringify] *)
  signal : option N
}.

Definition no_options : RequestInit :=
  {| method := None; headers := []; body := None; signal := None |}.

Record Request : Type := { url : string; init : RequestInit }.

(** A [Response]: [json] is what [response.json()] settles to. *)
Record Response : Type := {
  ok : bool;
  status : nat;
  json : Thrown + Json
}.

(** What a [fetch] promise settles to for each request: a rejection or a
    response. *)
Definition Net : Type := Request -> Thrown + Response.

(** ** The [Async] monad: network reader, request log, exceptions *)

Definition Async (A : Type) : Type :=
  Net -> list Request -> (Thrown + A) * list Request.

Definition ret {A} (a : A) : Async A := fun _ log => (inr a, log).

Definition throw {A} (t : Thrown) : Async A := fun _ log => (inl t, log).

Definition bind {A B} (m : Async A) (k : A -> Async B) : Async B :=
  fun net log =>
    match m net log with
    | (inr a, log') => k a net log'
    | (inl t, log') => (inl t, log')
    end.

(** [try { m } catch (error) { handler error }] *)
Definition try_catch {A} (m : Async A) (handler : Thrown -> Async A) : Async A :=
  fun net log =>
    match m net log with
    | (inr a, log') => (inr a, log')
    | (inl t, log') => handler t net log'
    end.

(** [await p] for a promise whose settlement is already known. *)
Definition await {A} (p : Thrown + A) : Async A :=
  match p with inr a => ret a | inl t => throw t end.

(** [await fetch(url, init)] *)
Definition fetch (u : string) (i : RequestInit) : Async Response :=
  fun net log =>
    let req := {| url := u; init := i |} in
    (net req, log ++ [req]).

Notation "'let*' x ':=' m 'in' k" := (bind m (fun x => k))
  (at level 10, x name, m at level 100, k at level 200).

(** The outcome and the requests of a computation started on an empty log. *)
Definition outcome {A} (m : Async A) (net : Net) : Thrown + A := fst (m net []).
Definition issued {A} (m : Async A) (net : Net) : list Request := snd (m net []).

(** A computation that never touches the network, and one that issues the
    single request [req], whatever the network answers. *)
Definition silent {A} (m : Async A) : Prop :=
  forall net log, snd (m net log) = log.
Definition issues {A} (m : Async A) (req : Request) : Prop :=
  forall net log, snd (m net log) = log ++ [req].

(** A computation that depends on the network through the answer to
    [req] at most. *)
Definition reads_only {A} (m : Async A) (req : Request) : Prop :=
  forall net1 net2 log, net1 req = net2 req -> m net1 log = m net2 log.

(** ** [src/types/sprite.ts] *)

Module Sprite.
Record t : Type := {
  id : string;
  character : string;
  pose : string;
  style : string;
  imageBase64 : string;
  rating : Z;
  feedback : option string;
  createdAt : string;
  updatedAt : option string
}.
End Sprite.

Module GenerateRequest.
Record t : Type := {
  character : string;
  pose : string;
  style : string
}.
End GenerateRequest.

(** ** [src/services/api.ts] *)

Definition dquote : string := String "034"%char EmptyString.
Definition newline : string := String "010"%char EmptyString.

Definition timeout_message : string :=
  "Request timed out. Please check if the backend server is running.".

Definition cannot_connect_message : string :=
  "Cannot connect to backend server. Please ensure the backend is running on http://localhost:5000".

(** The [catch] block of [fetchWithErrorHandling]. *)
Definition rethrow_with_better_message {A} (error : Thrown) : Async A :=
  match error with
  | ThrownError e =>
      if String.eqb (err_name e) "AbortError" || String.eqb (err_name e) "TimeoutError"
      then throw (ThrownError (new_Error timeout_message))
      else if includes "Failed to fetch" (err_message e)
              || includes "NetworkError" (err_message e)
      then throw (ThrownError (new_Error cannot_connect_message))
      else throw error
  | ThrownValue => throw error
  end.

(** [{ ...options, signal: AbortSignal.timeout(10000) }] *)
Definition with_timeout (options : option RequestInit) : RequestInit :=
  let o := default no_options options in
  {| method := method o; headers := headers o; body := body o;
     signal := Some 10000%N |}.

Definition fetchWithErrorHandling (u : string) (options : option RequestInit)
  : Async Response :=
  try_catch
    (let* response := fetch u (with_timeout options) in
     if negb (ok response) then
       let* errorData :=
         try_catch (await (json response))
                   (fun _ => ret (JObj [("error", JStr "Unknown error")])) in
       let* e := await (member "error" errorData) in
       throw (ThrownError (new_Error
         (match e with
          | Some v => if truthy e then js_String v
                      else "HTTP error! status: " ++ pretty (status response)
          | None => "HTTP error! status: " ++ pretty (status response)
          end)))
     else ret response)
    rethrow_with_better_message.

(** The request [fetchWithErrorHandling] puts on the wire. *)
Definition wrapped_request (u : string) (options : option RequestInit) : Request :=
  {| url := u; init := with_timeout options |}.

(** What a timed-out [fetch] looks like to the caller: the promise is
    rejected with the DOMException of the abort signal, whose name is
    TimeoutError (or AbortError). *)
Definition timed_out (net : Net) (req : Request) : Prop :=
  exists e, net req = inl (ThrownError e)
            /\ (err_name e = "AbortError" \/ err_name e = "TimeoutError").

Definition json_headers : list (string * string) :=
  [("Content-Type", "application/json")].

(** The prompt template of [generateSprite]. *)
Definition generateSprite_prompt (request : GenerateRequest.t) : string :=
  "Generate a sprite of " ++ GenerateRequest.character request
  ++ (if truthy_string (GenerateRequest.pose request)
      then " in " ++ GenerateRequest.pose request ++ " pose" else EmptyString)
  ++ (if truthy_string (GenerateRequest.style request)
      then " with " ++ GenerateRequest.style request ++ " style" else EmptyString)
  ++ ". High quality, detailed sprite art, game character design.".

(** The instruction [enhancePrompt] sends to the chat model. *)
Definition enhancePrompt_instruction (prompt : string) : string :=
  "Enhance this sprite generation prompt to be more detailed and specific for better AI art generation: "
  ++ dquote ++ prompt ++ dquote ++ ". Return only the enhanced prompt.".

Definition sendChat_instruction (message : string) : string :=
  "You are a helpful AI assistant specialized in sprite generation for games and animations. Help the user with their sprite creation needs. User message: "
  ++ dquote ++ message ++ dquote ++ ". " ++ newline ++ newline
  ++ "When suggesting specific values for character, pose, or style, format them like this:" ++ newline
  ++ "[CHARACTER: suggested_character_name]" ++ newline
  ++ "[POSE: suggested_pose_description]  " ++ newline
  ++ "[STYLE: suggested_style_description]" ++ newline ++ newline
  ++ "This will help the user apply your suggestions directly to their sprite parameters.".

(** [a || b] on a possibly undefined value. *)
Definition js_or (a : option Json) (b : Json) : Json :=
  match a with
  | Some v => if truthy a then v else b
  | None => b
  end.

(** A member that [JSON.stringify] leaves out when it is [undefined]. *)
Definition optional_field (k : string) (v : option string) : list (string * Json) :=
  match v with Some s => [(k, JStr s)] | None => [] end.

Module Filters.
Record t : Type := {
  character : option string;
  rating : option Z;
  sortBy : option string;
  sortOrder : option string
}.
End Filters.

Section Api.
(** [API_BASE_URL] is read from the build environment. *)
Variable API_BASE_URL : string.
(** The percent-encoding applied by [URLSearchParams.toString]. *)
Variable url_encode : string -> string.

Definition post (payload : Json) : option RequestInit :=
  Some {| method := Some "POST"; headers := json_headers;
          body := Some payload; signal := None |}.

Definition bodyless (m : string) : option RequestInit :=
  Some {| method := Some m; headers := json_headers;
          body := None; signal := None |}.

Definition generateSprite (request : GenerateRequest.t) : Async Json :=
  let prompt := generateSprite_prompt request in
  let* response :=
    fetchWithErrorHandling (API_BASE_URL ++ "/image")
      (post (JObj [("prompt", JStr prompt)])) in
  let* data := await (json response) in
  ret data.

Definition enhancePrompt (prompt : string) : Async Json :=
  let* response :=
    fetchWithErrorHandling (API_BASE_URL ++ "/chat")
      (post (JObj [("prompt", JStr (enhancePrompt_instruction prompt))])) in
  let* data := await (json response) in
  let* output := await (member "output" data) in
  ret (js_or output (JStr prompt)).

Definition sendChat (message : string) : Async Json :=
  let* response :=
    fetchWithErrorHandling (API_BASE_URL ++ "/chat")
      (post (JObj [("prompt", JStr (sendChat_instruction message))])) in
  let* data := await (json response) in
  let* output := await (member "output" data) in
  ret (js_or output (JStr "Sorry, I could not process your request.")).

Definition saveSprite (sprite : Sprite.t) : Async unit :=
  let* response :=
    fetchWithErrorHandling (API_BASE_URL ++ "/sprites")
      (post (JObj ([("id", JStr (Sprite.id sprite));
                    ("character", JStr (Sprite.character sprite));
                    ("pose", JStr (Sprite.pose sprite));
                    ("style", JStr (Sprite.style sprite));
                    ("image_base64", JStr (Sprite.imageBase64 sprite));
                    ("rating", JNum (Sprite.rating sprite))]
                   ++ optional_field "feedback" (Sprite.feedback sprite)))) in
  ret tt.

(** The [URLSearchParams] built by [fetchSprites]: a filter is appended
    when it is truthy.  The rating is a number that holds an integer;
    [pretty] is its [toString()] for the safe integers (at most
    2^53 - 1 in absolute value), beyond which JavaScript rounds the
    digits or switches to the exponent notation. *)
Definition fetchSprites_params (filters : option Filters.t) : list (string * string) :=
  match filters with
  | None => []
  | Some f =>
      (match Filters.character f with
       | Some c => if truthy_string c then [("character", c)] else []
       | None => []
       end)
      ++ (match Filters.rating f with
          | Some r => if (r =? 0)%Z then [] else [("rating", pretty r)]
          | None => []
          end)
      ++ (match Filters.sortBy f with
          | Some k => if truthy_string k then [("sort_by", k)] else []
          | None => []
          end)
      ++ (match Filters.sortOrder f with
          | Some o => if truthy_string o then [("sort_order", o)] else []
          | None => []
          end)
  end.

Definition params_toString (params : list (string * string)) : string :=
  join "&" (map (fun kv => (url_encode (fst kv) ++ "=" ++ url_encode (snd kv))%string) params).

Definition fetchSprites (filters : option Filters.t) : Async (option Json) :=
  let* response :=
    fetchWithErrorHandling
      (API_BASE_URL ++ "/sprites?" ++ params_toString (fetchSprites_params filters))
      (bodyless "GET") in
  let* data := await (json response) in
  let* sprites := await (member "sprites" data) in
  ret sprites.

Definition updateSpriteRating (id : string) (rating : Z) (feedback : option string)
  : Async unit :=
  let* response :=
    fetchWithErrorHandling (API_BASE_URL ++ "/sprites/" ++ id)
      (Some {| method := Some "PUT"; headers := json_headers;
               body := Some (JObj ([("rating", JNum rating)]
                                   ++ optional_field "feedback" feedback));
               signal := None |}) in
  ret tt.

Definition deleteSprite (id : string) : Async unit :=
  let* response :=
    fetchWithErrorHandling (API_BASE_URL ++ "/sprites/" ++ id) (bodyless "DELETE") in
  ret tt.

Definition getSpriteStats : Async Json :=
  let* response :=
    fetchWithErrorHandling (API_BASE_URL ++ "/sprites/stats") (bodyless "GET") in
  await (json response).

Definition is_healthy (status : option Json) : bool :=
  match status with
  | Some (JStr s) => String.eqb s "healthy"
  | _ => false
  end.

(** The [catch] of [checkBackendHealth] logs to the console and answers
    [false]. *)
Definition checkBackendHealth : Async bool :=
  try_catch
    (let* response := fetchWithErrorHandling (API_BASE_URL ++ "/health") None in
     let* data := await (json response) in
     let* status := await (member "status" data) in
     ret (is_healthy status))
    (fun _ => ret false).

End Api.

(** ** [src/services/personaApi.ts] *)

Module CreatePersonaRequest.
Record t : Type := {
  name : string;
  description : string;
  reference_image_base64 : option string;
  style_tags : list string;
  character_tags : list string;
  example_prompts : list string;
  is_active : option bool
}.
End CreatePersonaRequest.

Module PersonaFilters.
Record t : Type := {
  active_only : option bool;
  sort_by : option string;
  sort_order : option string
}.
End PersonaFilters.

Module PersonaApi.

Definition API_BASE_URL : string := "http://localhost:5000".

(** [JSON.stringify(request)]: members that are [undefined] are left out. *)
Definition request_json (r : CreatePersonaRequest.t) : Json :=
  JObj ([("name", JStr (CreatePersonaRequest.name r));
         ("description", JStr (CreatePersonaRequest.description r))]
        ++ optional_field "reference_image_base64"
             (CreatePersonaRequest.reference_image_base64 r)
        ++ [("style_tags", JArr (map JStr (CreatePersonaRequest.style_tags r)));
            ("character_tags", JArr (map JStr (CreatePersonaRequest.character_tags r)));
            ("example_prompts", JArr (map JStr (CreatePersonaRequest.example_prompts r)))]
        ++ match CreatePersonaRequest.is_active r with
           | Some b => [("is_active", JBool b)]
           | None => []
           end).

Definition options (m : string) (payload : option Json) : RequestInit :=
  {| method := Some m; headers := json_headers; body := payload;
     signal := None |}.

(** The block every persona call runs on a response that is not ok:
    [errorData.error || `${fallback}${response.status}`]. *)
Definition throw_unless_ok (fallback : string) (response : Response) : Async unit :=
  if negb (ok response) then
    let* errorData :=
      try_catch (await (json response))
                (fun _ => ret (JObj [("error", JStr "Unknown error")])) in
    let* e := await (member "error" errorData) in
    throw (ThrownError (new_Error
      (match e with
       | Some v => if truthy e then js_String v
                   else fallback ++ pretty (status response)
       | None => fallback ++ pretty (status response)
       end)))
  else ret tt.

Definition createPersona (request : CreatePersonaRequest.t) : Async Json :=
  let* response :=
    fetch (API_BASE_URL ++ "/personas") (options "POST" (Some (request_json request))) in
  let* _ := throw_unless_ok "HTTP error! status: " response in
  await (json response).

Definition fetchPersonas_params (filters : option PersonaFilters.t)
  : list (string * string) :=
  match filters with
  | None => []
  | Some f =>
      (match PersonaFilters.active_only f with
       | Some true => [("active_only", "true")]
       | _ => []
       end)
      ++ (match PersonaFilters.sort_by f with
          | Some k => if truthy_string k then [("sort_by", k)] else []
          | None => []
          end)
      ++ (match PersonaFilters.sort_order f with
          | Some o => if truthy_string o then [("sort_order", o)] else []
          | None => []
          end)
  end.

Section Queries.
(** The percent-encoding applied by [URLSearchParams.toString]. *)
Variable url_encode : string -> string.

Definition fetchPersonas (filters : option PersonaFilters.t) : Async (option Json) :=
  let* response :=
    fetch (API_BASE_URL ++ "/personas?"
           ++ params_toString url_encode (fetchPersonas_params filters))
          (options "GET" None) in
  let* _ := throw_unless_ok "Failed to fetch personas: " response in
  let* data := await (json response) in
  await (member "personas" data).
End Queries.

Definition fetchPersona (id : string) : Async (option Json) :=
  let* response := fetch (API_BASE_URL ++ "/personas/" ++ id) (options "GET" None) in
  let* _ := throw_unless_ok "Failed to fetch persona: " response in
  let* data := await (json response) in
  await (member "persona" data).

Definition updatePersona (id : string) (request : CreatePersonaRequest.t) : Async unit :=
  let* response :=
    fetch (API_BASE_URL ++ "/personas/" ++ id)
          (options "PUT" (Some (request_json request))) in
  throw_unless_ok "Failed to update persona: " response.

Definition deletePersona (id : string) : Async unit :=
  let* response :=
    fetch (API_BASE_URL ++ "/personas/" ++ id) (options "DELETE" None) in
  throw_unless_ok "Failed to delete persona: " response.

Definition togglePersonaStatus (id : string) : Async Json :=
  let* response :=
    fetch (API_BASE_URL ++ "/personas/" ++ id ++ "/toggle") (options "PUT" None) in
  let* _ := throw_unless_ok "Failed to toggle persona status: " response in
  await (json response).

Definition getPersonaStats : Async Json :=
  let* response := fetch (API_BASE_URL ++ "/personas/stats") (options "GET" None) in
  let* _ := throw_unless_ok "Failed to fetch persona stats: " response in
  await (json response).

End PersonaApi.

(** ** [src/components/MCPInterface.tsx] *)

Module MCPInterface.

Record ParamConfig : Type := { type : string; required : bool }.

Record MCPTool : Type := {
  name : string;
  description : string;
  parameters : list (string * ParamConfig)
}.

Definition tools : list MCPTool := [
  {| name := "generate_sprite";
     description := "Generate a character sprite with AI-enhanced prompting";
     parameters := [
       ("character", {| type := "string"; required := true |});
       ("pose", {| type := "string"; required := false |});
       ("style", {| type := "string"; required := false |});
       ("use_training_data", {| type := "boolean"; required := false |}) ] |};
  {| name := "enhance_prompt";
     description := "Enhance a sprite generation prompt using training data";
     parameters := [
       ("prompt", {| type := "string"; required := true |}) ] |};
  {| name := "analyze_sprite_quality";
     description := "Analyze sprite quality and get improvement suggestions";
     parameters := [
       ("sprite_id", {| type := "string"; required := true |}) ] |};
  {| name := "get_style_recommendations";
     description := "Get style recommendations based on successful generations";
     parameters := [
       ("character", {| type := "string"; required := true |}) ] |}
].

(** The component's state hooks. [result] starts as [null]. *)
Record State : Type := {
  selectedTool : string;
  toolParams : gmap string Json;
  result : Json;
  isExecuting : bool;
  error : option string
}.

Definition initial : State :=
  {| selectedTool := EmptyString; toolParams := ∅; result := JNull;
     isExecuting := false; error := None |}.

Definition handleToolSelect (toolName : string) (st : State) : State :=
  {| selectedTool := toolName; toolParams := ∅; result := JNull;
     isExecuting := isExecuting st; error := None |}.

Definition handleParamChange (paramName : string) (value : Json) (st : State) : State :=
  {| selectedTool := selectedTool st;
     toolParams := <[paramName := value]> (toolParams st);
     result := result st; isExecuting := isExecuting st; error := error st |}.

Definition execute_url : string := "http://localhost:5000/mcp/execute".

(** The invocation envelope posted by [executeTool]. *)
Definition envelope (st : State) : RequestInit :=
  {| method := Some "POST"; headers := json_headers;
     body := Some (JObj [("tool_name", JStr (selectedTool st));
                         ("parameters", JObj (map_to_list (toolParams st)))]);
     signal := None |}.

Definition executeTool (st : State) : Async State :=
  if negb (truthy_string (selectedTool st)) then ret st
  else
    (* setIsExecuting(true); setError(null) *)
    let st1 := {| selectedTool := selectedTool st; toolParams := toolParams st;
                  result := result st; isExecuting := true; error := None |} in
    let* st2 :=
      try_catch
        (let* response := fetch execute_url (envelope st) in
         if negb (ok response)
         then throw (ThrownError (new_Error "Tool execution failed"))
         else
           let* data := await (json response) in
           ret {| selectedTool := selectedTool st1; toolParams := toolParams st1;
                  result := data; isExecuting := isExecuting st1;
                  error := error st1 |})
        (fun err =>
           ret {| selectedTool := selectedTool st1; toolParams := toolParams st1;
                  result := result st1; isExecuting := isExecuting st1;
                  error := Some (message_or "Execution failed" err) |}) in
    (* finally: setIsExecuting(false) *)
    ret {| selectedTool := selectedTool st2; toolParams := toolParams st2;
           result := result st2; isExecuting := false; error := error st2 |}.

(** [tools.find(t => t.name === selectedTool)] *)
Definition selectedToolData (st : State) : option MCPTool :=
  find (fun t => String.eqb (name t) (selectedTool st)) tools.

(** What the user can do: press one of the tool buttons rendered from
    [tools], edit one of the inputs rendered for the selected tool, or
    press Execute (rendered once a tool is selected) while the network
    behaves as [net]. *)
Inductive Event : Type :=
  | ClickTool (i : nat)
  | EditParam (paramName : string) (value : Json)
  | ClickExecute (net : Net).

Definition on_event (ev : Event) (st : State) : State :=
  match ev with
  | ClickTool i =>
      match tools !! i with
      | Some t => handleToolSelect (name t) st
      | None => st
      end
  | EditParam p v =>
      match selectedToolData st with
      | Some t =>
          if existsb (fun kv => String.eqb (fst kv) p) (parameters t)
          then handleParamChange p v st else st
      | None => st
      end
  | ClickExecute net =>
      match selectedToolData st with
      | Some _ =>
          match outcome (executeTool st) net with
          | inr st' => st'
          | inl _ => st
          end
      | None => st
      end
  end.

Definition run_events (evs : list Event) : State :=
  foldl (fun st ev => on_event ev st) initial evs.

End MCPInterface.

(** The request [executeTool] puts on the wire. *)
Definition mcp_request (st : MCPInterface.State) : Request :=
  {| url := MCPInterface.execute_url; init := MCPInterface.envelope st |}.

(** The state in which the user has picked enhance_prompt and typed
    nothing. *)
Definition enhance_prompt_selected : MCPInterface.State :=
  MCPInterface.handleToolSelect "enhance_prompt" MCPInterface.initial.

(** An engine that accepts every invocation. *)
Definition accepting_engine : Net :=
  fun _ => inr {| ok := true; status := 200;
                  json := inr (JObj [("result", JStr "ok")]) |}.

(** An engine that refuses every invocation with status 400. *)
Definition refusing_engine : Net :=
  fun _ => inr {| ok := false; status := 400;
                  json := inr (JObj [("error", JStr "Missing parameter: prompt")]) |}.

(** [!selectedTool], the guard of [executeTool]. *)
Definition selectedTool_empty (st : MCPInterface.State) : bool :=
  negb (truthy_string (MCPInterface.selectedTool st)).

(** ** [src/components/TrainingDataUpload.tsx] *)

Module TrainingDataUpload.

Record FormData : Type := {
  character : string;
  pose : string;
  styleTags : list string;
  characterTags : list string;
  prompt : string
}.

Definition empty_form : FormData :=
  {| character := EmptyString; pose := EmptyString; styleTags := [];
     characterTags := []; prompt := EmptyString |}.

Record State : Type := {
  formData : FormData;
  currentStyleTag : string;
  currentCharacterTag : string;
  selectedImage : option string;
  isUploading : bool;
  error : option string
}.

(** [!selectedImage]: [null] and the empty string are falsy. *)
Definition no_image (img : option string) : bool :=
  match img with
  | Some s => negb (truthy_string s)
  | None => true
  end.

Definition validation_message : string :=
  "Please provide character name, image, and at least one style tag".

Definition upload_url : string := "http://localhost:5000/training-data".

(** The JSON document posted for one training reference. *)
Definition payload (f : FormData) (image : string) : Json :=
  JObj [("character", JStr (character f));
        ("pose", JStr (pose f));
        ("style_tags", JArr (map JStr (styleTags f)));
        ("character_tags", JArr (map JStr (characterTags f)));
        ("image_base64", JStr image);
        ("prompt", JStr (prompt f))].

Definition set_error (msg : option string) (st : State) : State :=
  {| formData := formData st; currentStyleTag := currentStyleTag st;
     currentCharacterTag := currentCharacterTag st;
     selectedImage := selectedImage st; isUploading := isUploading st;
     error := msg |}.

Definition set_uploading (b : bool) (st : State) : State :=
  {| formData := formData st; currentStyleTag := currentStyleTag st;
     currentCharacterTag := currentCharacterTag st;
     selectedImage := selectedImage st; isUploading := b;
     error := error st |}.

(** "Reset form": [setFormData] to the empty form, [setSelectedImage(null)]. *)
Definition reset_form (st : State) : State :=
  {| formData := empty_form; currentStyleTag := currentStyleTag st;
     currentCharacterTag := currentCharacterTag st;
     selectedImage := None; isUploading := isUploading st;
     error := error st |}.

(** The guard at the top of [handleSubmit]. *)
Definition submit_refused (st : State) : bool :=
  no_image (selectedImage st)
  || negb (truthy_string (character (formData st)))
  || (length (styleTags (formData st)) =? 0)%nat.

Definition upload_options (st : State) : RequestInit :=
  {| method := Some "POST"; headers := json_headers;
     body := Some (payload (formData st)
                           (default EmptyString (selectedImage st)));
     signal := None |}.

Definition upload_request (st : State) : Request :=
  {| url := upload_url; init := upload_options st |}.

(** [onUploadComplete] is the parent's callback; in [App] it only logs. *)
Definition handleSubmit (st : State) : Async State :=
  if submit_refused st
  then ret (set_error (Some validation_message) st)
  else
    let st1 := set_error None (set_uploading true st) in
    let* st2 :=
      try_catch
        (let* response := fetch upload_url (upload_options st) in
         if negb (ok response)
         then throw (ThrownError (new_Error "Failed to upload training data"))
         else ret (reset_form st1))
        (fun err =>
           ret (set_error (Some (message_or "Upload failed" err)) st1)) in
    ret (set_uploading false st2).

(** The [disabled] attribute of the submit button. *)
Definition submit_disabled (st : State) : bool :=
  isUploading st
  || no_image (selectedImage st)
  || negb (truthy_string (character (formData st)))
  || (length (styleTags (formData st)) =? 0)%nat.

Definition initial : State :=
  {| formData := empty_form; currentStyleTag := EmptyString;
     currentCharacterTag := EmptyString; selectedImage := None;
     isUploading := false; error := None |}.

Definition with_styleTags (tags : list string) (f : FormData) : FormData :=
  {| character := character f; pose := pose f; styleTags := tags;
     characterTags := characterTags f; prompt := prompt f |}.

Definition with_characterTags (tags : list string) (f : FormData) : FormData :=
  {| character := character f; pose := pose f; styleTags := styleTags f;
     characterTags := tags; prompt := prompt f |}.

(** [tags.includes(tag)] *)
Definition has_tag (tag : string) (tags : list string) : bool :=
  existsb (String.eqb tag) tags.

Definition addStyleTag (st : State) : State :=
  let tag := trim (currentStyleTag st) in
  if truthy_string tag && negb (has_tag tag (styleTags (formData st)))
  then {| formData := with_styleTags (styleTags (formData st) ++ [tag]) (formData st);
          currentStyleTag := EmptyString;
          currentCharacterTag := currentCharacterTag st;
          selectedImage := selectedImage st; isUploading := isUploading st;
          error := error st |}
  else st.

Definition addCharacterTag (st : State) : State :=
  let tag := trim (currentCharacterTag st) in
  if truthy_string tag && negb (has_tag tag (characterTags (formData st)))
  then {| formData := with_characterTags (characterTags (formData st) ++ [tag])
                                         (formData st);
          currentStyleTag := currentStyleTag st;
          currentCharacterTag := EmptyString;
          selectedImage := selectedImage st; isUploading := isUploading st;
          error := error st |}
  else st.

(** [tags.filter(t => t !== tag)] *)
Definition without_tag (tag : string) (tags : list string) : list string :=
  List.filter (fun t => negb (String.eqb t tag)) tags.

Definition removeStyleTag (tag : string) (st : State) : State :=
  {| formData := with_styleTags (without_tag tag (styleTags (formData st)))
                                (formData st);
     currentStyleTag := currentStyleTag st;
     currentCharacterTag := currentCharacterTag st;
     selectedImage := selectedImage st; isUploading := isUploading st;
     error := error st |}.

Definition removeCharacterTag (tag : string) (st : State) : State :=
  {| formData := with_characterTags (without_tag tag (characterTags (formData st)))
                                    (formData st);
     currentStyleTag := currentStyleTag st;
     currentCharacterTag := currentCharacterTag st;
     selectedImage := selectedImage st; isUploading := isUploading st;
     error := error st |}.

(** [setCurrentStyleTag(e.target.value)] *)
Definition typeStyleTag (text : string) (st : State) : State :=
  {| formData := formData st; currentStyleTag := text;
     currentCharacterTag := currentCharacterTag st;
     selectedImage := selectedImage st; isUploading := isUploading st;
     error := error st |}.

(** [base64.split(',')[1]]: [None] is [undefined]. *)
Definition base64Data (dataUrl : string) : option string :=
  split ","%char dataUrl !! 1%nat.

(** [handleImageUpload] once the [FileReader] has loaded the chosen file
    as the data URL [dataUrl]; without a file nothing happens. *)
Definition handleImageUpload (file : option string) (st : State) : State :=
  match file with
  | None => st
  | Some dataUrl =>
      {| formData := formData st; currentStyleTag := currentStyleTag st;
         currentCharacterTag := currentCharacterTag st;
         selectedImage := base64Data dataUrl; isUploading := isUploading st;
         error := error st |}
  end.

(** The tag editing the user can do before submitting. *)
Inductive TagEvent : Type :=
  | TypeStyleTag (text : string)
  | AddStyleTag
  | RemoveStyleTag (tag : string).

Definition on_tag_event (ev : TagEvent) (st : State) : State :=
  match ev with
  | TypeStyleTag text => typeStyleTag text st
  | AddStyleTag => addStyleTag st
  | RemoveStyleTag tag => removeStyleTag tag st
  end.

End TrainingDataUpload.

(** A filled-in upload form. *)
Definition filled_form : TrainingDataUpload.State :=
  {| TrainingDataUpload.formData :=
       {| TrainingDataUpload.character := "Mage";
          TrainingDataUpload.pose := "idle";
          TrainingDataUpload.styleTags := ["anime"; "fire"];
          TrainingDataUpload.characterTags := [];
          TrainingDataUpload.prompt := "a fire mage" |};
     TrainingDataUpload.currentStyleTag := EmptyString;
     TrainingDataUpload.currentCharacterTag := EmptyString;
     TrainingDataUpload.selectedImage := Some "iVBORw0KGgo=";
     TrainingDataUpload.isUploading := false;
     TrainingDataUpload.error := None |}.

(** ** [src/App.tsx] *)

Module App.

Record State : Type := {
  activeTab : string;
  sprites : list Sprite.t;
  loading : bool;
  error : option string;
  sidebarOpen : bool;
  backendConnected : option bool
}.

Definition set_sprites (l : list Sprite.t) (st : State) : State :=
  {| activeTab := activeTab st; sprites := l; loading := loading st;
     error := error st; sidebarOpen := sidebarOpen st;
     backendConnected := backendConnected st |}.

Definition set_error (msg : option string) (st : State) : State :=
  {| activeTab := activeTab st; sprites := sprites st; loading := loading st;
     error := msg; sidebarOpen := sidebarOpen st;
     backendConnected := backendConnected st |}.

Section Handlers.
Variable API_BASE_URL : string.
(** [new Date().toISOString()] as read while the element at a given
    position of the list is visited. *)
Variable now : nat -> string.

(** [{ ...sprite, rating, feedback, updatedAt: new Date().toISOString() }] *)
Definition rated (i : nat) (rating : Z) (feedback : option string)
           (sprite : Sprite.t) : Sprite.t :=
  {| Sprite.id := Sprite.id sprite;
     Sprite.character := Sprite.character sprite;
     Sprite.pose := Sprite.pose sprite;
     Sprite.style := Sprite.style sprite;
     Sprite.imageBase64 := Sprite.imageBase64 sprite;
     Sprite.rating := rating;
     Sprite.feedback := feedback;
     Sprite.createdAt := Sprite.createdAt sprite;
     Sprite.updatedAt := Some (now i) |}.

(** The updater handed to [setSprites] by [handleRatingChange]. *)
Definition update_rating (id : string) (rating : Z) (feedback : option string)
           (prev : list Sprite.t) : list Sprite.t :=
  imap (fun i sprite =>
          if String.eqb (Sprite.id sprite) id
          then rated i rating feedback sprite
          else sprite) prev.

Definition handleRatingChange (id : string) (rating : Z)
           (feedback : option string) (st : State) : Async State :=
  try_catch
    (let* _ := updateSpriteRating API_BASE_URL id rating feedback in
     ret (set_sprites (update_rating id rating feedback (sprites st)) st))
    (fun err =>
       ret (set_error
              (Some (message_or "Failed to update rating" err)) st)).

(** The percent-encoding applied by [URLSearchParams.toString]. *)
Variable url_encode : string -> string.
(** [data.sprites] taken as a [Sprite[]]: the annotation of [fetchSprites]
    is not checked at run time. *)
Variable as_sprites : option Json -> list Sprite.t.

Definition set_loading (b : bool) (st : State) : State :=
  {| activeTab := activeTab st; sprites := sprites st; loading := b;
     error := error st; sidebarOpen := sidebarOpen st;
     backendConnected := backendConnected st |}.

Definition set_backendConnected (b : option bool) (st : State) : State :=
  {| activeTab := activeTab st; sprites := sprites st; loading := loading st;
     error := error st; sidebarOpen := sidebarOpen st;
     backendConnected := b |}.

Definition not_responding_message : string :=
  "Backend server is not responding. Please ensure the backend is running on http://localhost:5000".

Definition checkBackendConnection (st : State) : Async State :=
  try_catch
    (let* isHealthy := checkBackendHealth API_BASE_URL in
     let st1 := set_backendConnected (Some isHealthy) st in
     ret (if negb isHealthy
          then set_error (Some not_responding_message) st1
          else st1))
    (fun _ =>
       ret (set_error (Some cannot_connect_message)
                      (set_backendConnected (Some false) st))).

(** The filters [loadSprites] always asks for. *)
Definition newest_first : option Filters.t :=
  Some {| Filters.character := None; Filters.rating := None;
          Filters.sortBy := Some "created_at";
          Filters.sortOrder := Some "DESC" |}.

(** The test of the [catch] of [loadSprites] for a connection error. *)
Definition looks_like_connection_error (errorMessage : string) : bool :=
  includes "connect" errorMessage || includes "fetch" errorMessage
  || includes "backend" errorMessage.

Definition loadSprites (st : State) : Async State :=
  (* setLoading(true); setError(null) *)
  let st1 := set_error None (set_loading true st) in
  let* st2 :=
    try_catch
      (let* fetchedSprites := fetchSprites API_BASE_URL url_encode newest_first in
       ret (set_backendConnected (Some true)
              (set_sprites (as_sprites fetchedSprites) st1)))
      (fun err =>
         let errorMessage := message_or "Failed to load sprites" err in
         let st' := set_error (Some errorMessage) st1 in
         ret (if looks_like_connection_error errorMessage
              then set_backendConnected (Some false) st'
              else st')) in
  (* finally: setLoading(false) *)
  ret (set_loading false st2).

Definition handleSpriteGenerated (sprite : Sprite.t) (st : State) : Async State :=
  try_catch
    (let* _ := saveSprite API_BASE_URL sprite in
     ret (set_sprites (sprite :: sprites st) st))
    (fun err =>
       ret (set_sprites (sprite :: sprites st)
              (set_error (Some (message_or "Failed to save sprite" err)) st))).

End Handlers.

End App.

(** ** [src/components/SpriteGallery.tsx] *)

Module SpriteGallery.

Inductive SortBy : Type := newest | oldest | rating.

Record State : Type := {
  searchTerm : string;
  filterRating : option Z;
  sortBy : SortBy;
  deletingId : option string
}.

Definition initial : State :=
  {| searchTerm := EmptyString; filterRating := None; sortBy := newest;
     deletingId := None |}.

Definition set_deletingId (d : option string) (st : State) : State :=
  {| searchTerm := searchTerm st; filterRating := filterRating st;
     sortBy := sortBy st; deletingId := d |}.

(** What became of a click on the delete button: the user declined the
    [confirm] dialog, the sprite was deleted and [onRefresh] called, or
    the call failed and an [alert] was shown. *)
Inductive DeleteResult : Type := Cancelled | Refreshed | Alerted.

Section Gallery.
Variable API_BASE_URL : string.
(** [new Date(s).getTime()], for the dates the sprites carry. *)
Variable getTime : string -> Z.

Definition matchesSearch (st : State) (sprite : Sprite.t) : bool :=
  let term := toLowerCase (searchTerm st) in
  includes term (toLowerCase (Sprite.character sprite))
  || (truthy_string (Sprite.pose sprite)
      && includes term (toLowerCase (Sprite.pose sprite)))
  || (truthy_string (Sprite.style sprite)
      && includes term (toLowerCase (Sprite.style sprite))).

Definition matchesRating (st : State) (sprite : Sprite.t) : bool :=
  match filterRating st with
  | None => true
  | Some r => (Sprite.rating sprite =? r)%Z
  end.

Definition shown (st : State) (sprite : Sprite.t) : bool :=
  matchesSearch st sprite && matchesRating st sprite.

(** The comparator handed to [sort]. *)
Definition compare (order : SortBy) (a b : Sprite.t) : Z :=
  match order with
  | newest => getTime (Sprite.createdAt b) - getTime (Sprite.createdAt a)
  | oldest => getTime (Sprite.createdAt a) - getTime (Sprite.createdAt b)
  | rating => Sprite.rating b - Sprite.rating a
  end.

(** [Array.prototype.sort] is a stable sort: an element goes in front of
    the first one it does not have to follow. *)
Fixpoint insert_by (cmp : Sprite.t -> Sprite.t -> Z) (x : Sprite.t)
         (l : list Sprite.t) : list Sprite.t :=
  match l with
  | [] => [x]
  | y :: rest =>
      if (cmp x y <=? 0)%Z then x :: y :: rest else y :: insert_by cmp x rest
  end.

Definition sort_by (cmp : Sprite.t -> Sprite.t -> Z) (l : list Sprite.t)
  : list Sprite.t :=
  foldr (insert_by cmp) [] l.

Definition filteredSprites (st : State) (sprites : list Sprite.t) : list Sprite.t :=
  sort_by (compare (sortBy st)) (List.filter (shown st) sprites).

(** [confirmed] is the answer to the [confirm] dialog. *)
Definition handleDeleteSprite (confirmed : bool) (id : string) (st : State)
  : Async (State * DeleteResult) :=
  if negb confirmed then ret (st, Cancelled)
  else
    let st1 := set_deletingId (Some id) st in
    let* r :=
      try_catch
        (let* _ := deleteSprite API_BASE_URL id in ret Refreshed)
        (fun _ => ret Alerted) in
    ret (set_deletingId None st1, r).

End Gallery.

End SpriteGallery.

(** ** [src/components/SpriteGenerator.tsx] *)

Module SpriteGenerator.

Record ChatMessage : Type := {
  sender : string;
  message : string;
  timestamp : string
}.

Record State : Type := {
  formData : GenerateRequest.t;
  isGenerating : bool;
  generatedSprite : option string;
  error : option string;
  chatHistory : list ChatMessage;
  currentChatMessage : string;
  isChatLoading : bool
}.

Section Generator.
Variable API_BASE_URL : string.
(** [Date.now().toString()] and [new Date().toISOString()] at the moment
    the sprite is built, and the time stamps of the two chat messages. *)
Variable now_ms : string.
Variable now_iso : string.
Variable chat_time : nat -> string.
(** [result.image_base64] and the chat answer taken as strings: the
    annotations of [generateSprite] and [sendChat] are not checked at run
    time. *)
Variable as_string : option Json -> string.

Definition set_generating (b : bool) (st : State) : State :=
  {| formData := formData st; isGenerating := b;
     generatedSprite := generatedSprite st; error := error st;
     chatHistory := chatHistory st;
     currentChatMessage := currentChatMessage st;
     isChatLoading := isChatLoading st |}.

Definition set_error (msg : option string) (st : State) : State :=
  {| formData := formData st; isGenerating := isGenerating st;
     generatedSprite := generatedSprite st; error := msg;
     chatHistory := chatHistory st;
     currentChatMessage := currentChatMessage st;
     isChatLoading := isChatLoading st |}.

Definition set_generatedSprite (img : option string) (st : State) : State :=
  {| formData := formData st; isGenerating := isGenerating st;
     generatedSprite := img; error := error st;
     chatHistory := chatHistory st;
     currentChatMessage := currentChatMessage st;
     isChatLoading := isChatLoading st |}.

(** The sprite built from the form and the generated image. *)
Definition new_sprite (f : GenerateRequest.t) (image : string) : Sprite.t :=
  {| Sprite.id := now_ms;
     Sprite.character := GenerateRequest.character f;
     Sprite.pose := GenerateRequest.pose f;
     Sprite.style := GenerateRequest.style f;
     Sprite.imageBase64 := image;
     Sprite.rating := 0;
     Sprite.feedback := None;
     Sprite.createdAt := now_iso;
     Sprite.updatedAt := None |}.

(** The second component is the sprite handed to [onSpriteGenerated], if
    any. *)
Definition handleSubmit (st : State) : Async (State * option Sprite.t) :=
  if negb (truthy_string (trim (GenerateRequest.character (formData st))))
  then ret (st, None)
  else
    let st1 := set_error None (set_generating true st) in
    let* r :=
      try_catch
        (let* result := generateSprite API_BASE_URL (formData st) in
         let* image := await (member "image_base64" result) in
         let sprite := new_sprite (formData st) (as_string image) in
         ret (set_generatedSprite (Some (as_string image)) st1, Some sprite))
        (fun err =>
           ret (set_error (Some (message_or "Failed to generate sprite" err)) st1,
                None)) in
    ret (set_generating false (fst r), snd r).

Definition chat_error_message : string :=
  "Sorry, I encountered an error. Please try again.".

Definition handleChatSubmit (st : State) : Async State :=
  if negb (truthy_string (trim (currentChatMessage st))) || isChatLoading st
  then ret st
  else
    let userMessage := {| sender := "user"; message := currentChatMessage st;
                          timestamp := chat_time 0 |} in
    let history := chatHistory st ++ [userMessage] in
    let* botMessage :=
      try_catch
        (let* botResponse := sendChat API_BASE_URL (currentChatMessage st) in
         ret {| sender := "bot"; message := as_string (Some botResponse);
                timestamp := chat_time 1 |})
        (fun _ =>
           ret {| sender := "bot"; message := chat_error_message;
                  timestamp := chat_time 1 |}) in
    ret {| formData := formData st; isGenerating := isGenerating st;
           generatedSprite := generatedSprite st; error := error st;
           chatHistory := history ++ [botMessage];
           currentChatMessage := EmptyString;
           isChatLoading := false |}.

End Generator.

End SpriteGenerator.

(** ** The tag matcher of the recommendation engine

    The engine runs behind [/mcp/execute]; its code is not part of the
    client sources above, so the matcher is written down from its
    specification. *)

Module TagMatcher.
Local Open Scope Q_scope.

(** Modelled from the spec: the TrainingReference record of the data
    model (the engine's store is not in the client sources). *)
Record TrainingReference : Type := {
  character : string;
  pose : option string;
  style_tags : list string;
  character_tags : list string;
  prompt : string;
  rating : option nat;
  uploaded_at : Z
}.

(** Modelled from the spec: the target request (character, pose, style)
    handed to the matcher, pose and style optional. *)
Record Target : Type := {
  t_character : string;
  t_pose : option string;
  t_style : option string
}.

(** Modelled from the spec: the character classes behind "lowercase word
    sets" and "non-alphanumeric boundaries" (ASCII letters and digits). *)
Definition is_upper (c : ascii) : bool :=
  (65 <=? nat_of_ascii c)%nat && (nat_of_ascii c <=? 90)%nat.

Definition is_alnum (c : ascii) : bool :=
  let n := nat_of_ascii c in
  ((48 <=? n) && (n <=? 57) || (65 <=? n) && (n <=? 90)
   || (97 <=? n) && (n <=? 122))%nat.

Definition lower_char (c : ascii) : ascii :=
  if is_upper c then ascii_of_nat (nat_of_ascii c + 32) else c.

(** Modelled from the spec: lowercasing, the normalisation used by every
    case-insensitive comparison of the matcher. *)
Fixpoint lowercase (s : string) : string :=
  match s with
  | EmptyString => EmptyString
  | String c rest => String (lower_char c) (lowercase rest)
  end.

(** Modelled from the spec: splitting on non-alphanumeric boundaries.
    [split_words cur s] lists the lowercase words of [s], [cur] being the
    word read so far, in reverse. *)
Fixpoint split_words (cur : list ascii) (s : string) : list string :=
  let flush := match cur with
               | [] => []
               | _ => [String.string_of_list_ascii (rev cur)]
               end in
  match s with
  | EmptyString => flush
  | String c rest =>
      if is_alnum c then split_words (lower_char c :: cur) rest
      else flush ++ split_words [] rest
  end.

(** Modelled from the spec: tokenisation into a set of lowercase words,
    splitting on non-alphanumeric boundaries. *)
Definition tokens (s : string) : gset string :=
  list_to_set (split_words [] s).

(** Modelled from the spec: a reference's style tags, lowercased, as a
    set. *)
Definition style_tag_set (r : TrainingReference) : gset string :=
  list_to_set (map lowercase (style_tags r)).

(** Modelled from the spec: Jaccard similarity of two token sets, 0 when
    both are empty. *)
Definition jaccard (A B : gset string) : Q :=
  match size (A ∪ B) with
  | O => 0
  | S n => Z.of_nat (size (A ∩ B)) # Pos.of_succ_nat n
  end.

(** Modelled from the spec: the test "either is empty" on token sets. *)
Definition is_empty_set (A : gset string) : bool := bool_decide (A = ∅).

(** Modelled from the spec: "1.0 if the reference's character equals the
    target's character (case-insensitive), else the Jaccard similarity of
    their token sets, else 0 if either is empty". *)
Definition character_score (t : Target) (r : TrainingReference) : Q :=
  if String.eqb (lowercase (character r)) (lowercase (t_character t)) then 1
  else if is_empty_set (tokens (t_character t))
          || is_empty_set (tokens (character r)) then 0
  else jaccard (tokens (t_character t)) (tokens (character r)).

(** Modelled from the spec: "Jaccard similarity between the target's
    style tokens and the reference's style_tags (tags lowercased); 0 if
    the target supplies no style". *)
Definition style_score (t : Target) (r : TrainingReference) : Q :=
  match t_style t with
  | None => 0
  | Some s => jaccard (tokens s) (style_tag_set r)
  end.

(** Modelled from the spec: "1.0 if both poses are present and equal
    (case-insensitive) or token-overlap > 0, else 0.5 if either side
    omits pose, else 0". *)
Definition pose_score (t : Target) (r : TrainingReference) : Q :=
  match t_pose t, pose r with
  | Some p, Some q =>
      if String.eqb (lowercase p) (lowercase q)
         || negb (is_empty_set (tokens p ∩ tokens q))
      then 1 else 0
  | _, _ => 1 # 2
  end.

(** Modelled from the spec: the weighted sum
    0.5 character + 0.35 style + 0.15 pose. *)
Definition weighted_sum (t : Target) (r : TrainingReference) : Q :=
  (1 # 2) * character_score t r + (7 # 20) * style_score t r
  + (3 # 20) * pose_score t r.

(** Modelled from the spec: clamping to [0,1]. *)
Definition clamp01 (x : Q) : Q :=
  if Qle_bool x 0 then 0 else if Qle_bool 1 x then 1 else x.

(** Modelled from the spec: the combined score of the matcher. *)
Definition score (t : Target) (r : TrainingReference) : Q :=
  clamp01 (weighted_sum t r).







(** A reference whose only style tag is made of two words, and a request
    that names this very style. *)
Definition pixel_knight : TrainingReference :=
  {| character := "Knight"; pose := Some "idle";
     style_tags := ["pixel art"]; character_tags := [];
     prompt := "a knight"; rating := None; uploaded_at := 0 |}.

Definition pixel_knight_request : Target :=
  {| t_character := "Knight"; t_pose := Some "idle";
     t_style := Some "pixel art" |}.

End TagMatcher.

(** A small gallery. *)
Definition sample_sprite (id character : string) (rating : Z) : Sprite.t :=
  {| Sprite.id := id; Sprite.character := character;
     Sprite.pose := "idle"; Sprite.style := "pixel art";
     Sprite.imageBase64 := "iVBORw0KGgo="; Sprite.rating := rating;
     Sprite.feedback := None;
     Sprite.createdAt := "2024-01-01T00:00:00.000Z";
     Sprite.updatedAt := None |}.

Definition sample_gallery : list Sprite.t :=
  [sample_sprite "1700000000001" "Mage" 0;
   sample_sprite "1700000000002" "Knight" 3].

Definition sample_clock : nat -> string :=
  fun _ => "2024-01-02T10:00:00.000Z".

Definition sample_app : App.State :=
  {| App.activeTab := "gallery"; App.sprites := sample_gallery;
     App.loading := false; App.error := None;
     App.sidebarOpen := true; App.backendConnected := Some true |}.

(** ** The specification's wording, kept apart for comparison with the code *)

(** The base prompt as the specification words it:
    "a sprite of {character}[, in {pose} pose][, {style} style]". *)
Definition spec_base_prompt (request : GenerateRequest.t) : string :=
  "a sprite of " ++ GenerateRequest.character request
  ++ (if truthy_string (GenerateRequest.pose request)
      then ", in " ++ GenerateRequest.pose request ++ " pose" else EmptyString)
  ++ (if truthy_string (GenerateRequest.style request)
      then ", " ++ GenerateRequest.style request ++ " style" else EmptyString).

(** The parameter schema table as the specification lists it: one row per
    (tool, parameter, type, required). *)
Definition spec_schema_rows : list (string * string * string * bool) := [
  ("generate_sprite", "character", "string", true);
  ("generate_sprite", "pose", "string", false);
  ("generate_sprite", "style", "string", false);
  ("generate_sprite", "use_training_data", "boolean", false);
  ("enhance_prompt", "prompt", "string", true);
  ("analyze_sprite_quality", "sprite_id", "string", true);
  ("get_style_recommendations", "character", "string", true)
].

Definition spec_tool_names : list string :=
  ["generate_sprite"; "enhance_prompt"; "analyze_sprite_quality";
   "get_style_recommendations"].

(** The rows of the table the component declares. *)
Definition schema_rows (ts : list MCPInterface.MCPTool)
  : list (string * string * string * bool) :=
  flat_map (fun t =>
    map (fun kv => (MCPInterface.name t, fst kv,
                    MCPInterface.type (snd kv), MCPInterface.required (snd kv)))
        (MCPInterface.parameters t)) ts.

(** The two input errors the specification's dispatcher raises first. *)
Inductive DispatchError : Type :=
  | UnknownTool
  | MissingParameter (name : string).

(** The specification's validation of an invocation against the table:
    unknown tool name, then the first required parameter that is absent. *)
Definition spec_validate (tool_name : string) (params : gmap string Json)
  : option DispatchError :=
  match find (fun t => String.eqb (MCPInterface.name t) tool_name) MCPInterface.tools with
  | None => Some UnknownTool
  | Some t =>
      match find (fun kv => MCPInterface.required (snd kv)
                            && bool_decide (params !! fst kv = None))
                 (MCPInterface.parameters t) with
      | Some kv => Some (MissingParameter (fst kv))
      | None => None
      end
  end.

(** "Dispatch fails before any component logic runs", read on the client:
    nothing is sent to the engine and an error is reported. *)
Definition rejected_before_dispatch (st : MCPInterface.State) (net : Net) : Prop :=
  issued (MCPInterface.executeTool st) net = []
  /\ exists st' msg, outcome (MCPInterface.executeTool st) net = inr st'
                     /\ MCPInterface.error st' = Some msg.

(** The server as the client knows it: the training references uploaded so
    far (the documents posted to [/training-data]) and how it answers. *)
Record Backend : Type := {
  training_data : list Json;
  respond : Net
}.

Definition mage_idle_pixel : GenerateRequest.t :=
  {| GenerateRequest.character := "Mage";
     GenerateRequest.pose := "idle";
     GenerateRequest.style := "pixel art" |}.

(** The request [enhancePrompt] puts on the wire. *)
Definition chat_request (base prompt : string) : Request :=
  wrapped_request (base ++ "/chat")
    (post (JObj [("prompt", JStr (enhancePrompt_instruction prompt))])).

(** A server whose chat model answers every request with [text]. *)
Definition chat_reply (text : string) : Net :=
  fun _ => inr {| ok := true; status := 200;
                  json := inr (JObj [("output", JStr text)]) |}.

(** A server that holds no training reference and whose chat model
    answers with [text]. *)
Definition empty_store_backend (text : string) : Backend :=
  {| training_data := []; respond := chat_reply text |}.

(** A server whose answer carries no output member. *)
Definition silent_chat : Net :=
  fun _ => inr {| ok := true; status := 200; json := inr (JObj []) |}.

(** A server that answers with status 500 and then stalls: the 10 s
    signal fires while the body is being read, so [response.json()] is
    rejected with the signal's TimeoutError. *)
Definition stalled_error_body : Net :=
  fun _ => inr {| ok := false; status := 500;
                  json := inl (ThrownError {| err_name := "TimeoutError";
                                              err_message := "signal timed out" |}) |}.

(** A network on which every request runs into the time-out. *)
Definition always_times_out : Net :=
  fun _ => inl (ThrownError {| err_name := "TimeoutError";
                               err_message := "signal timed out" |}).

(** ** Every operation that talks to the server *)

Inductive Operation : Type :=
  | OpGenerateSprite (request : GenerateRequest.t)
  | OpEnhancePrompt (prompt : string)
  | OpSendChat (message : string)
  | OpSaveSprite (sprite : Sprite.t)
  | OpFetchSprites (filters : option Filters.t)
  | OpUpdateSpriteRating (id : string) (rating : Z) (feedback : option string)
  | OpDeleteSprite (id : string)
  | OpGetSpriteStats
  | OpCheckBackendHealth
  | OpExecuteTool (st : MCPInterface.State)
  | OpUploadTrainingData (st : TrainingDataUpload.State)
  | OpRateSprite (id : string) (rating : Z) (feedback : option string) (st : App.State).

Section Operations.
Variable API_BASE_URL : string.
Variable url_encode : string -> string.
Variable now : nat -> string.

(** The requests an operation issues when started on an empty log. *)
Definition requests_of (op : Operation) (net : Net) : list Request :=
  match op with
  | OpGenerateSprite r => issued (generateSprite API_BASE_URL r) net
  | OpEnhancePrompt p => issued (enhancePrompt API_BASE_URL p) net
  | OpSendChat m => issued (sendChat API_BASE_URL m) net
  | OpSaveSprite s => issued (saveSprite API_BASE_URL s) net
  | OpFetchSprites f => issued (fetchSprites API_BASE_URL url_encode f) net
  | OpUpdateSpriteRating i r f => issued (updateSpriteRating API_BASE_URL i r f) net
  | OpDeleteSprite i => issued (deleteSprite API_BASE_URL i) net
  | OpGetSpriteStats => issued (getSpriteStats API_BASE_URL) net
  | OpCheckBackendHealth => issued (checkBackendHealth API_BASE_URL) net
  | OpExecuteTool st => issued (MCPInterface.executeTool st) net
  | OpUploadTrainingData st => issued (TrainingDataUpload.handleSubmit st) net
  | OpRateSprite i r f st =>
      issued (App.handleRatingChange API_BASE_URL now i r f st) net
  end.
End Operations.

(** ** Vocabulary of the further properties *)

(** [c] occurs in [s]. *)
Fixpoint occurs (c : ascii) (s : string) : bool :=
  match s with
  | EmptyString => false
  | String a rest => Ascii.eqb c a || occurs c rest
  end.

Definition is_digit (c : ascii) : bool :=
  let n := nat_of_ascii c in ((48 <=? n) && (n <=? 57))%nat.

(** A message that [fetchWithErrorHandling] takes for a network failure. *)
Definition mentions_network_failure (msg : string) : bool :=
  includes "Failed to fetch" msg || includes "NetworkError" msg.

(** The error of an abort signal: its name is AbortError or TimeoutError. *)
Definition is_abort (e : JsError) : bool :=
  String.eqb (err_name e) "AbortError" || String.eqb (err_name e) "TimeoutError".

(** What the [try] block of [fetchWithErrorHandling] throws on a response
    that is not ok, before the [catch] block sees it. *)
Definition http_error_of (fallback : string) (r : Response) : Thrown :=
  match json r with
  | inl _ => ThrownError (new_Error "Unknown error")
  | inr data =>
      match member "error" data with
      | inl t => t
      | inr e =>
          ThrownError (new_Error
            (match e with
             | Some v => if truthy e then js_String v
                         else fallback ++ pretty (status r)
             | None => fallback ++ pretty (status r)
             end))
      end
  end.

(** What reaches the caller of [fetchWithErrorHandling] for a thrown
    value. *)
Definition surfaced (t : Thrown) : Thrown :=
  match t with
  | ThrownError e =>
      if is_abort e then ThrownError (new_Error timeout_message)
      else if mentions_network_failure (err_message e)
      then ThrownError (new_Error cannot_connect_message)
      else t
  | ThrownValue => t
  end.

(** The seven calls of the persona service. *)
Inductive PersonaCall : Type :=
  | CallCreatePersona (request : CreatePersonaRequest.t)
  | CallFetchPersonas (filters : option PersonaFilters.t)
  | CallFetchPersona (id : string)
  | CallUpdatePersona (id : string) (request : CreatePersonaRequest.t)
  | CallDeletePersona (id : string)
  | CallTogglePersonaStatus (id : string)
  | CallGetPersonaStats.

(** What became of a call, forgetting the value it returned. *)
Definition thrown_by {A} (m : Async A) (net : Net) : option Thrown :=
  match outcome m net with
  | inl t => Some t
  | inr _ => None
  end.

Section PersonaCalls.
Variable url_encode : string -> string.

Definition persona_requests (c : PersonaCall) (net : Net) : list Request :=
  match c with
  | CallCreatePersona r => issued (PersonaApi.createPersona r) net
  | CallFetchPersonas f => issued (PersonaApi.fetchPersonas url_encode f) net
  | CallFetchPersona i => issued (PersonaApi.fetchPersona i) net
  | CallUpdatePersona i r => issued (PersonaApi.updatePersona i r) net
  | CallDeletePersona i => issued (PersonaApi.deletePersona i) net
  | CallTogglePersonaStatus i => issued (PersonaApi.togglePersonaStatus i) net
  | CallGetPersonaStats => issued PersonaApi.getPersonaStats net
  end.

(** The request each call puts on the wire. *)
Definition persona_request (c : PersonaCall) : Request :=
  match c with
  | CallCreatePersona r =>
      {| url := PersonaApi.API_BASE_URL ++ "/personas";
         init := PersonaApi.options "POST" (Some (PersonaApi.request_json r)) |}
  | CallFetchPersonas f =>
      {| url := PersonaApi.API_BASE_URL ++ "/personas?"
                ++ params_toString url_encode (PersonaApi.fetchPersonas_params f);
         init := PersonaApi.options "GET" None |}
  | CallFetchPersona i =>
      {| url := PersonaApi.API_BASE_URL ++ "/personas/" ++ i;
         init := PersonaApi.options "GET" None |}
  | CallUpdatePersona i r =>
      {| url := PersonaApi.API_BASE_URL ++ "/personas/" ++ i;
         init := PersonaApi.options "PUT" (Some (PersonaApi.request_json r)) |}
  | CallDeletePersona i =>
      {| url := PersonaApi.API_BASE_URL ++ "/personas/" ++ i;
         init := PersonaApi.options "DELETE" None |}
  | CallTogglePersonaStatus i =>
      {| url := PersonaApi.API_BASE_URL ++ "/personas/" ++ i ++ "/toggle";
         init := PersonaApi.options "PUT" None |}
  | CallGetPersonaStats =>
      {| url := PersonaApi.API_BASE_URL ++ "/personas/stats";
         init := PersonaApi.options "GET" None |}
  end.

Definition persona_thrown (c : PersonaCall) (net : Net) : option Thrown :=
  match c with
  | CallCreatePersona r => thrown_by (PersonaApi.createPersona r) net
  | CallFetchPersonas f => thrown_by (PersonaApi.fetchPersonas url_encode f) net
  | CallFetchPersona i => thrown_by (PersonaApi.fetchPersona i) net
  | CallUpdatePersona i r => thrown_by (PersonaApi.updatePersona i r) net
  | CallDeletePersona i => thrown_by (PersonaApi.deletePersona i) net
  | CallTogglePersonaStatus i => thrown_by (PersonaApi.togglePersonaStatus i) net
  | CallGetPersonaStats => thrown_by PersonaApi.getPersonaStats net
  end.
End PersonaCalls.

Definition sample_persona : CreatePersonaRequest.t :=
  {| CreatePersonaRequest.name := "Ren";
     CreatePersonaRequest.description := "a wandering swordsman";
     CreatePersonaRequest.reference_image_base64 := None;
     CreatePersonaRequest.style_tags := ["anime"];
     CreatePersonaRequest.character_tags := ["warrior"];
     CreatePersonaRequest.example_prompts := [];
     CreatePersonaRequest.is_active := Some true |}.

(** A persona service that refuses every call with status 409 and a
    message of its own. *)
Definition persona_conflict : Net :=
  fun _ => inr {| ok := false; status := 409;
                  json := inr (JObj [("error", JStr "NetworkError: name already taken")]) |}.

(** A string that is empty or begins with something else than white
    space. *)
Definition starts_clean (s : string) : bool :=
  match s with
  | EmptyString => true
  | String c _ => negb (is_js_space c)
  end.

(** The style tags after a sequence of tag edits on the empty form. *)
Definition style_tags_after (evs : list TrainingDataUpload.TagEvent) : list string :=
  TrainingDataUpload.styleTags
    (TrainingDataUpload.formData
       (foldl (fun st ev => TrainingDataUpload.on_tag_event ev st)
              TrainingDataUpload.initial evs)).

(** Every parameter held in the state is declared by the selected tool. *)
Definition params_in_schema (st : MCPInterface.State) : Prop :=
  forall p, is_Some (MCPInterface.toolParams st !! p) ->
    exists t, MCPInterface.selectedToolData st = Some t
              /\ In p (map fst (MCPInterface.parameters t)).

(** A network on which every fetch is rejected with a non-Error value. *)
Definition rejects_with_value : Net := fun _ => inl ThrownValue.

(** A generator form asking for the sample request, with an empty chat. *)
Definition sample_generator : SpriteGenerator.State :=
  {| SpriteGenerator.formData := mage_idle_pixel;
     SpriteGenerator.isGenerating := false;
     SpriteGenerator.generatedSprite := None;
     SpriteGenerator.error := None;
     SpriteGenerator.chatHistory := [];
     SpriteGenerator.currentChatMessage := "a knight, please";
     SpriteGenerator.isChatLoading := false |}.

(** [result.image_base64] read as a string when it is one. *)
Definition string_member (v : option Json) : string :=
  match v with
  | Some (JStr s) => s
  | _ => EmptyString
  end.


(** The 10 s signal of a request can fire at two moments: before the
    response arrives, which rejects the [fetch] promise ([timed_out]), or,
    the response being there, while its body is read, which rejects
    [response.json()] with the signal's error. *)
Definition times_out (net : Net) (req : Request) : Prop :=
  timed_out net req
  \/ exists r e, net req = inr r /\ json r = inl (ThrownError e)
                 /\ is_abort e = true.

(** A server that answers with status 200 and then stalls: the signal
    fires while the body is being read. *)
Definition stalled_ok_body : Net :=
  fun _ => inr {| ok := true; status := 200;
                  json := inl (ThrownError {| err_name := "TimeoutError";
                                              err_message := "signal timed out" |}) |}.

(** A server that answers every request with an image. *)
Definition image_backend : Net :=
  fun _ => inr {| ok := true; status := 200;
                  json := inr (JObj [("image_base64", JStr "iVBORw0KGgo=")]) |}.

(** * Properties *)

(** ** The model on small inputs *)

Example includes_examples :
  includes "Failed to fetch" "TypeError: Failed to fetch" = true
  /\ includes "NetworkError" "NetworkError when attempting to fetch resource." = true
  /\ includes "NetworkError" "signal timed out" = false.
Proof. repeat split. Qed.

Example js_String_examples :
  js_String (JArr [JNum 1; JNull; JStr "a"]) = "1,,a"
  /\ js_String (JObj []) = "[object Object]"
  /\ js_String (JNum (-12)) = "-12".
Proof. repeat split. Qed.

(** How [fetchWithErrorHandling] words the failures of an HTTP 500. *)
Example http_error_messages :
  let failing (b : Thrown + Json) : Net :=
    fun _ => inr {| ok := false; status := 500; json := b |} in
  outcome (fetchWithErrorHandling "/sprites" None)
          (failing (inr (JObj [("error", JStr "Database unavailable")])))
  = inl (ThrownError (new_Error "Database unavailable"))
  /\ outcome (fetchWithErrorHandling "/sprites" None) (failing (inr (JObj [])))
     = inl (ThrownError (new_Error "HTTP error! status: 500"))
  /\ outcome (fetchWithErrorHandling "/sprites" None) (failing (inl ThrownValue))
     = inl (ThrownError (new_Error "Unknown error")).
Proof. repeat split. Qed.

Example network_failure_message :
  outcome (fetchWithErrorHandling "/sprites" None)
          (fun _ => inl (ThrownError {| err_name := "TypeError";
                                        err_message := "Failed to fetch" |}))
  = inl (ThrownError (new_Error cannot_connect_message)).
Proof. reflexivity. Qed.

Example tokens_example :
  TagMatcher.split_words [] "Pixel-Art, 16bit!" = ["pixel"; "art"; "16bit"]
  /\ TagMatcher.lowercase "Fire Mage" = "fire mage".
Proof. repeat split. Qed.

(** ** The request log *)

Ltac run_async :=
  unfold outcome, issued, rethrow_with_better_message in *;
  unfold bind, try_catch, await, fetch in *;
  unfold ret, throw in *; simpl in *.

Section Log.
Context {A B : Type}.

Lemma silent_ret (a : A) : silent (ret a).
Proof. intros net log. reflexivity. Qed.

Lemma silent_throw (t : Thrown) : silent (throw (A := A) t).
Proof. intros net log. reflexivity. Qed.

Lemma silent_await (p : Thrown + A) : silent (await p).
Proof. destruct p; intros net log; reflexivity. Qed.

Lemma silent_bind (m : Async A) (k : A -> Async B) :
  silent m -> (forall a, silent (k a)) -> silent (bind m k).
Proof.
  intros Hm Hk net log. unfold bind. specialize (Hm net log).
  destruct (m net log) as [[t|a] log']; simpl in *; subst; [reflexivity | apply Hk].
Qed.

Lemma silent_try_catch (m : Async A) (h : Thrown -> Async A) :
  silent m -> (forall t, silent (h t)) -> silent (try_catch m h).
Proof.
  intros Hm Hh net log. unfold try_catch. specialize (Hm net log).
  destruct (m net log) as [[t|a] log']; simpl in *; subst; [apply Hh | reflexivity].
Qed.

Lemma issues_bind (m : Async A) (k : A -> Async B) req :
  issues m req -> (forall a, silent (k a)) -> issues (bind m k) req.
Proof.
  intros Hm Hk net log. unfold bind. specialize (Hm net log).
  destruct (m net log) as [[t|a] log']; simpl in *; subst; [reflexivity | apply Hk].
Qed.

Lemma issues_try_catch (m : Async A) (h : Thrown -> Async A) req :
  issues m req -> (forall t, silent (h t)) -> issues (try_catch m h) req.
Proof.
  intros Hm Hh net log. unfold try_catch. specialize (Hm net log).
  destruct (m net log) as [[t|a] log']; simpl in *; subst; [apply Hh | reflexivity].
Qed.
End Log.

Lemma issues_issued {A} (m : Async A) req net :
  issues m req -> issued m net = [req].
Proof. intros H. unfold issued. rewrite H. reflexivity. Qed.

Lemma silent_issued {A} (m : Async A) net :
  silent m -> issued m net = [].
Proof. intros H. unfold issued. rewrite H. reflexivity. Qed.

Lemma issues_fetch u i : issues (fetch u i) {| url := u; init := i |}.
Proof. intros net log. reflexivity. Qed.

Lemma silent_rethrow {A} (t : Thrown) : silent (rethrow_with_better_message (A := A) t).
Proof.
  unfold rethrow_with_better_message.
  destruct t as [e|]; repeat case_match; apply silent_throw.
Qed.

Ltac log_step :=
  first [ apply silent_ret | apply silent_throw | apply silent_await
        | apply silent_rethrow
        | apply silent_bind; [| intros ?]
        | apply silent_try_catch; [| intros ?]
        | apply issues_fetch
        | apply issues_bind; [| intros ?]
        | apply issues_try_catch; [| intros ?]
        | case_match ].

(** [fetchWithErrorHandling] adds its one request to the log, whatever the
    network does. *)
Lemma issues_fetchWithErrorHandling u options :
  issues (fetchWithErrorHandling u options) (wrapped_request u options).
Proof. unfold fetchWithErrorHandling, wrapped_request. repeat log_step. Qed.

Section RequestCount.
Variable API_BASE_URL : string.
Variable url_encode : string -> string.
Variable now : nat -> string.

Ltac one_request :=
  repeat first [ apply issues_fetchWithErrorHandling | log_step ].

Lemma issues_generateSprite r :
  issues (generateSprite API_BASE_URL r)
    (wrapped_request (API_BASE_URL ++ "/image")
       (post (JObj [("prompt", JStr (generateSprite_prompt r))]))).
Proof. unfold generateSprite. one_request. Qed.

Lemma issues_enhancePrompt p :
  issues (enhancePrompt API_BASE_URL p)
    (wrapped_request (API_BASE_URL ++ "/chat")
       (post (JObj [("prompt", JStr (enhancePrompt_instruction p))]))).
Proof. unfold enhancePrompt. one_request. Qed.

Lemma issues_updateSpriteRating id rating feedback :
  exists req, issues (updateSpriteRating API_BASE_URL id rating feedback) req.
Proof. eexists. unfold updateSpriteRating. one_request. Qed.

(** Each call of [api.ts], and the rating handler built on one of them,
    issues exactly one request. *)
Lemma api_call_single_request (op : Operation) net :
  match op with
  | OpExecuteTool _ | OpUploadTrainingData _ => True
  | _ => exists req, requests_of API_BASE_URL url_encode now op net = [req]
  end.
Proof.
  destruct op; try exact I; eexists; unfold requests_of;
    apply issues_issued;
    unfold generateSprite, enhancePrompt, sendChat, saveSprite,
      fetchSprites, updateSpriteRating, deleteSprite, getSpriteStats,
      checkBackendHealth, App.handleRatingChange, updateSpriteRating;
    one_request.
Qed.
End RequestCount.

Lemma executeTool_log st :
  (selectedTool_empty st = true /\ silent (MCPInterface.executeTool st))
  \/ (selectedTool_empty st = false
      /\ issues (MCPInterface.executeTool st)
                {| url := MCPInterface.execute_url; init := MCPInterface.envelope st |}).
Proof.
  unfold selectedTool_empty, MCPInterface.executeTool.
  destruct (truthy_string (MCPInterface.selectedTool st)); simpl.
  - right. split; [reflexivity | repeat log_step].
  - left. split; [reflexivity | repeat log_step].
Qed.

Lemma handleSubmit_log st :
  (TrainingDataUpload.submit_refused st = true
   /\ silent (TrainingDataUpload.handleSubmit st))
  \/ (TrainingDataUpload.submit_refused st = false
      /\ issues (TrainingDataUpload.handleSubmit st)
                (TrainingDataUpload.upload_request st)).
Proof.
  unfold TrainingDataUpload.handleSubmit.
  destruct (TrainingDataUpload.submit_refused st); simpl.
  - left. split; [reflexivity | repeat log_step].
  - right. split; [reflexivity | unfold TrainingDataUpload.upload_request; repeat log_step].
Qed.

(** C9. No operation of the client retries: whatever the network does
    (success, HTTP error, rejection, timeout), an invocation of any
    operation issues at most one request -- exactly one for the calls of
    api.ts, none or one for the tool executor and the upload form. *)
Theorem C9_at_most_one_request :
  forall (API_BASE_URL : string) (url_encode : string -> string)
         (now : nat -> string) (op : Operation) (net : Net),
    length (requests_of API_BASE_URL url_encode now op net) <= 1
    /\ match op with
       | OpExecuteTool _ | OpUploadTrainingData _ => True
       | _ => length (requests_of API_BASE_URL url_encode now op net) = 1
       end.
Proof.
  intros base enc now op net.
  pose proof (api_call_single_request base enc now op net) as H.
  destruct op; cbn [requests_of] in *;
    lazymatch type of H with
    | ex _ => destruct H as [req ->]; simpl; split; [lia | reflexivity]
    | _ => split; [| exact I]
    end.
  - destruct (executeTool_log st) as [[_ Hs] | [_ Hi]].
    + rewrite (silent_issued _ net Hs). simpl. lia.
    + rewrite (issues_issued _ _ net Hi). simpl. lia.
  - destruct (handleSubmit_log st) as [[_ Hs] | [_ Hi]].
    + rewrite (silent_issued _ net Hs). simpl. lia.
    + rewrite (issues_issued _ _ net Hi). simpl. lia.
Qed.

(** ** Timeouts *)

Lemma fetchWithErrorHandling_timeout u options net log :
  timed_out net (wrapped_request u options) ->
  fetchWithErrorHandling u options net log
  = (inl (ThrownError (new_Error timeout_message)),
     log ++ [wrapped_request u options]).
Proof.
  intros (e & Hnet & Hname).
  unfold fetchWithErrorHandling, wrapped_request in *. run_async.
  rewrite Hnet. simpl.
  destruct Hname as [-> | ->]; reflexivity.
Qed.

(** A time-out that rejects the fetch surfaces as the time-out error:
    the call yields that error and no response, its only effect is the
    one request already logged, and a call that awaits it and goes on
    with the response stops there with the same error. *)
Lemma timeout_propagates u options net log :
  timed_out net (wrapped_request u options) ->
  signal (init (wrapped_request u options)) = Some 10000%N
  /\ fetchWithErrorHandling u options net log
     = (inl (ThrownError (new_Error timeout_message)),
        log ++ [wrapped_request u options])
  /\ forall (A : Type) (k : Response -> Async A),
       bind (fetchWithErrorHandling u options) k net log
       = (inl (ThrownError (new_Error timeout_message)),
          log ++ [wrapped_request u options]).
Proof.
  intros Ht. split; [reflexivity |].
  pose proof (fetchWithErrorHandling_timeout u options net log Ht) as E.
  split; [exact E |].
  intros A k. unfold bind. rewrite E. reflexivity.
Qed.

Example timeout_propagates_example :
  fetchWithErrorHandling "http://localhost:5000/sprites?" (bodyless "GET")
    always_times_out []
  = (inl (ThrownError (new_Error timeout_message)),
     [] ++ [wrapped_request "http://localhost:5000/sprites?" (bodyless "GET")]).
Proof.
  apply (timeout_propagates "http://localhost:5000/sprites?"
           (bodyless "GET") always_times_out []).
  eexists. split; [reflexivity | right; reflexivity].
Qed.

(** C8. A query that runs into its 10 s time-out must surface the
    time-out error.  [fetchWithErrorHandling] does so when the signal
    rejects the fetch itself ([timeout_propagates]), but not when the
    signal fires while the body of a response that is not ok is being
    read: the [.catch] on [response.json()] swallows the TimeoutError and
    the caller is told "Unknown error". *)
Theorem C8_timeout_while_reading_error_body :
  outcome (fetchWithErrorHandling "http://localhost:5000/sprites?" (bodyless "GET"))
          stalled_error_body
  = inl (ThrownError (new_Error "Unknown error"))
  /\ outcome (fetchWithErrorHandling "http://localhost:5000/sprites?" (bodyless "GET"))
             stalled_error_body
     <> inl (ThrownError (new_Error timeout_message))
  /\ outcome (fetchWithErrorHandling "http://localhost:5000/sprites?" (bodyless "GET"))
             always_times_out
     = inl (ThrownError (new_Error timeout_message)).
Proof.
  split; [reflexivity |]. split; [| reflexivity].
  vm_compute. discriminate.
Qed.

(** When the rating update times out, the gallery keeps its sprites as
    they were and shows the time-out message. *)
Lemma rating_timeout_keeps_sprites base now id rating feedback st net :
  (forall req, timed_out net req) ->
  outcome (App.handleRatingChange base now id rating feedback st) net
  = inr (App.set_error (Some timeout_message) st).
Proof.
  intros Ht. unfold outcome, App.handleRatingChange, updateSpriteRating.
  unfold try_catch at 1. unfold bind at 1.
  match goal with |- context [bind (fetchWithErrorHandling ?u ?o) ?k net []] =>
    destruct (timeout_propagates u o net [] (Ht _)) as (_ & _ & E); rewrite (E _ k) end.
  reflexivity.
Qed.

(** ** Prompts *)

Section ReadsOnly.
Context {A B : Type} (req : Request).

Lemma reads_ret (a : A) : reads_only (ret a) req.
Proof. intros net1 net2 log _. reflexivity. Qed.

Lemma reads_throw (t : Thrown) : reads_only (throw (A := A) t) req.
Proof. intros net1 net2 log _. reflexivity. Qed.

Lemma reads_await (p : Thrown + A) : reads_only (await p) req.
Proof. destruct p; intros net1 net2 log _; reflexivity. Qed.

Lemma reads_bind (m : Async A) (k : A -> Async B) :
  reads_only m req -> (forall a, reads_only (k a) req) ->
  reads_only (bind m k) req.
Proof.
  intros Hm Hk net1 net2 log H. unfold bind. rewrite (Hm net1 net2 log H).
  destruct (m net2 log) as [[t|a] log']; [reflexivity | apply Hk, H].
Qed.

Lemma reads_try_catch (m : Async A) (h : Thrown -> Async A) :
  reads_only m req -> (forall t, reads_only (h t) req) ->
  reads_only (try_catch m h) req.
Proof.
  intros Hm Hh net1 net2 log H. unfold try_catch. rewrite (Hm net1 net2 log H).
  destruct (m net2 log) as [[t|a] log']; [apply Hh, H | reflexivity].
Qed.

Lemma reads_rethrow (t : Thrown) :
  reads_only (rethrow_with_better_message (A := A) t) req.
Proof.
  unfold rethrow_with_better_message.
  destruct t as [e|]; repeat case_match; apply reads_throw.
Qed.
End ReadsOnly.

Lemma reads_fetch u i : reads_only (fetch u i) {| url := u; init := i |}.
Proof. intros net1 net2 log H. unfold fetch. simpl. rewrite H. reflexivity. Qed.

Ltac reads_step :=
  first [ apply reads_ret | apply reads_throw | apply reads_await
        | apply reads_rethrow | apply reads_fetch
        | apply reads_bind; [| intros ?]
        | apply reads_try_catch; [| intros ?]
        | case_match ].

(** [enhancePrompt] reads the network at its own request only. *)
Lemma enhancePrompt_reads_one_answer base prompt :
  reads_only (enhancePrompt base prompt) (chat_request base prompt).
Proof.
  unfold enhancePrompt, fetchWithErrorHandling, chat_request, wrapped_request.
  repeat reads_step.
Qed.

(** What [enhancePrompt] returns once the chat call has answered with a
    JSON document. *)
Lemma enhancePrompt_answered base prompt net response data output :
  net (chat_request base prompt) = inr response ->
  ok response = true ->
  json response = inr data ->
  member "output" data = inr output ->
  outcome (enhancePrompt base prompt) net = inr (js_or output (JStr prompt)).
Proof.
  intros Hnet Hok Hjson Hout.
  unfold enhancePrompt, fetchWithErrorHandling, chat_request, wrapped_request in *.
  run_async. rewrite Hnet. simpl. rewrite Hok. simpl.
  rewrite Hjson. simpl. rewrite Hout. reflexivity.
Qed.

(** C1 (amended). [enhancePrompt] returns the prompt it was given,
    unchanged and with nothing appended, when the answer of the chat
    model carries no output (the member is absent, null or empty); an
    answer that carries an output is returned as it is.  The training
    store is not consulted. *)
Theorem C1_enhancePrompt_falls_back_on_prompt :
  forall (base prompt : string) (net : Net) (response : Response)
         (data : Json) (output : option Json),
    net (chat_request base prompt) = inr response ->
    ok response = true ->
    json response = inr data ->
    member "output" data = inr output ->
    (truthy output = false ->
       outcome (enhancePrompt base prompt) net = inr (JStr prompt))
    /\ (forall v, output = Some v -> truthy output = true ->
          outcome (enhancePrompt base prompt) net = inr v).
Proof.
  intros base prompt net response data output Hnet Hok Hjson Hout.
  rewrite (enhancePrompt_answered _ _ _ _ _ _ Hnet Hok Hjson Hout).
  split.
  - intros Hf. unfold js_or. rewrite Hf. destruct output; reflexivity.
  - intros v -> Ht. unfold js_or. rewrite Ht. reflexivity.
Qed.

(** C3 (amended). [enhancePrompt] adds no randomness of its own: two runs
    on the same prompt whose chat request is answered in the same way
    produce the same result and issue the same request. *)
Theorem C3_enhancePrompt_same_answer_same_result :
  forall (base prompt : string) (net1 net2 : Net),
    net1 (chat_request base prompt) = net2 (chat_request base prompt) ->
    outcome (enhancePrompt base prompt) net1
    = outcome (enhancePrompt base prompt) net2
    /\ issued (enhancePrompt base prompt) net1
       = issued (enhancePrompt base prompt) net2.
Proof.
  intros base prompt net1 net2 H. unfold outcome, issued.
  rewrite (enhancePrompt_reads_one_answer base prompt net1 net2 [] H).
  split; reflexivity.
Qed.

Lemma C1_enhancePrompt_falls_back_on_prompt_witness :
  (truthy None = false ->
     outcome (enhancePrompt "http://localhost:5000" "a sprite of Mage") silent_chat
     = inr (JStr "a sprite of Mage"))
  /\ (forall v, None = Some v -> truthy None = true ->
        outcome (enhancePrompt "http://localhost:5000" "a sprite of Mage") silent_chat
        = inr v).
Proof.
  apply (C1_enhancePrompt_falls_back_on_prompt
           "http://localhost:5000" "a sprite of Mage" silent_chat
           {| ok := true; status := 200; json := inr (JObj []) |} (JObj []) None);
    reflexivity.
Defined.

(** With an empty training store the result is still whatever the chat
    model answered, not the prompt. *)
Lemma C1_counterexample :
  training_data (empty_store_backend "a heroic mage, 32x32 pixel art") = []
  /\ outcome (enhancePrompt "http://localhost:5000" "a sprite of Mage")
             (respond (empty_store_backend "a heroic mage, 32x32 pixel art"))
     = inr (JStr "a heroic mage, 32x32 pixel art")
  /\ outcome (enhancePrompt "http://localhost:5000" "a sprite of Mage")
             (respond (empty_store_backend "a heroic mage, 32x32 pixel art"))
     <> inr (JStr "a sprite of Mage").
Proof.
  split; [reflexivity |]. split; [reflexivity |].
  vm_compute. discriminate.
Qed.

Lemma C3_enhancePrompt_same_answer_same_result_witness :
  outcome (enhancePrompt "http://localhost:5000" "a sprite of Mage")
          (chat_reply "a heroic mage")
  = outcome (enhancePrompt "http://localhost:5000" "a sprite of Mage")
            (respond (empty_store_backend "a heroic mage"))
  /\ issued (enhancePrompt "http://localhost:5000" "a sprite of Mage")
            (chat_reply "a heroic mage")
     = issued (enhancePrompt "http://localhost:5000" "a sprite of Mage")
              (respond (empty_store_backend "a heroic mage")).
Proof.
  apply (C3_enhancePrompt_same_answer_same_result
           "http://localhost:5000" "a sprite of Mage"
           (chat_reply "a heroic mage")
           (respond (empty_store_backend "a heroic mage"))).
  reflexivity.
Defined.

(** Two runs on the same prompt against the same (empty) training store
    differ as soon as the chat model answers differently. *)
Lemma C3_counterexample :
  training_data (empty_store_backend "a heroic mage")
  = training_data (empty_store_backend "a wizard in robes")
  /\ outcome (enhancePrompt "http://localhost:5000" "a sprite of Mage")
             (respond (empty_store_backend "a heroic mage"))
     <> outcome (enhancePrompt "http://localhost:5000" "a sprite of Mage")
               (respond (empty_store_backend "a wizard in robes")).
Proof.
  split; [reflexivity |]. vm_compute. discriminate.
Qed.

Lemma truthy_string_false s : truthy_string s = false <-> s = EmptyString.
Proof. destruct s; simpl; split; congruence. Qed.

Lemma truthy_string_true s : truthy_string s = true <-> s <> EmptyString.
Proof. destruct s; simpl; split; congruence. Qed.

(** C2 (amended). The prompt [generateSprite] builds from a request is
    "Generate a sprite of {character}", followed by " in {pose} pose" if
    and only if the pose is non-empty, by " with {style} style" if and
    only if the style is non-empty, and closed by the fixed sentence
    ". High quality, detailed sprite art, game character design."; it is
    posted as the [prompt] member of the one request sent to /image. *)
Theorem C2_generateSprite_prompt_shape :
  forall (base : string) (request : GenerateRequest.t) (net : Net),
    GenerateRequest.character request <> EmptyString ->
    exists pose_clause style_clause : string,
      generateSprite_prompt request
      = "Generate a sprite of " +:+ GenerateRequest.character request
        +:+ pose_clause +:+ style_clause
        +:+ ". High quality, detailed sprite art, game character design."
      /\ (GenerateRequest.pose request <> EmptyString ->
            pose_clause = " in " +:+ GenerateRequest.pose request +:+ " pose")
      /\ (GenerateRequest.pose request = EmptyString -> pose_clause = EmptyString)
      /\ (GenerateRequest.style request <> EmptyString ->
            style_clause = " with " +:+ GenerateRequest.style request +:+ " style")
      /\ (GenerateRequest.style request = EmptyString -> style_clause = EmptyString)
      /\ issued (generateSprite base request) net
         = [wrapped_request (base +:+ "/image")
              (post (JObj [("prompt", JStr (generateSprite_prompt request))]))].
Proof.
  intros base request net _.
  exists (if truthy_string (GenerateRequest.pose request)
          then " in " +:+ GenerateRequest.pose request +:+ " pose" else EmptyString).
  exists (if truthy_string (GenerateRequest.style request)
          then " with " +:+ GenerateRequest.style request +:+ " style" else EmptyString).
  split; [reflexivity |].
  repeat split.
  - intros H. apply truthy_string_true in H. rewrite H. reflexivity.
  - intros H. apply truthy_string_false in H. rewrite H. reflexivity.
  - intros H. apply truthy_string_true in H. rewrite H. reflexivity.
  - intros H. apply truthy_string_false in H. rewrite H. reflexivity.
  - apply issues_issued, issues_generateSprite.
Qed.

Lemma C2_generateSprite_prompt_shape_witness :
  exists pose_clause style_clause : string,
    generateSprite_prompt mage_idle_pixel
    = "Generate a sprite of " +:+ GenerateRequest.character mage_idle_pixel
      +:+ pose_clause +:+ style_clause
      +:+ ". High quality, detailed sprite art, game character design."
    /\ (GenerateRequest.pose mage_idle_pixel <> EmptyString ->
          pose_clause = " in " +:+ GenerateRequest.pose mage_idle_pixel +:+ " pose")
    /\ (GenerateRequest.pose mage_idle_pixel = EmptyString -> pose_clause = EmptyString)
    /\ (GenerateRequest.style mage_idle_pixel <> EmptyString ->
          style_clause = " with " +:+ GenerateRequest.style mage_idle_pixel +:+ " style")
    /\ (GenerateRequest.style mage_idle_pixel = EmptyString -> style_clause = EmptyString)
    /\ issued (generateSprite "http://localhost:5000" mage_idle_pixel) silent_chat
       = [wrapped_request ("http://localhost:5000" +:+ "/image")
            (post (JObj [("prompt", JStr (generateSprite_prompt mage_idle_pixel))]))].
Proof.
  apply (C2_generateSprite_prompt_shape "http://localhost:5000" mage_idle_pixel silent_chat).
  discriminate.
Defined.

(** The prompt the code builds is not the one the specification words. *)
Lemma C2_counterexample :
  GenerateRequest.character mage_idle_pixel <> EmptyString
  /\ spec_base_prompt mage_idle_pixel
     = "a sprite of Mage, in idle pose, pixel art style"
  /\ generateSprite_prompt mage_idle_pixel
     = "Generate a sprite of Mage in idle pose with pixel art style. High quality, detailed sprite art, game character design."
  /\ generateSprite_prompt mage_idle_pixel <> spec_base_prompt mage_idle_pixel.
Proof.
  split; [discriminate |]. split; [reflexivity |]. split; [reflexivity |].
  vm_compute. discriminate.
Qed.

(** ** The tool table *)

Lemma schema_rows_tools : schema_rows MCPInterface.tools = spec_schema_rows.
Proof. reflexivity. Qed.

(** C4. The table of tool parameters declared by the component is the
    fixed table of the four tools: the tool names are exactly
    generate_sprite, enhance_prompt, analyze_sprite_quality and
    get_style_recommendations, each once, and a tool has a parameter of
    a given type and required flag if and only if that row is one of the
    seven rows of the specification's table. *)
Theorem C4_schema_table_is_fixed :
  map MCPInterface.name MCPInterface.tools = spec_tool_names
  /\ NoDup spec_tool_names
  /\ schema_rows MCPInterface.tools = spec_schema_rows
  /\ forall tool param ty req,
       (exists t cfg, In t MCPInterface.tools
                      /\ MCPInterface.name t = tool
                      /\ In (param, cfg) (MCPInterface.parameters t)
                      /\ MCPInterface.type cfg = ty
                      /\ MCPInterface.required cfg = req)
       <-> In (tool, param, ty, req) spec_schema_rows.
Proof.
  split; [reflexivity |].
  split; [apply (bool_decide_unpack (NoDup spec_tool_names)); vm_compute; exact I |].
  split; [exact schema_rows_tools |].
  intros tool param ty req. rewrite <- schema_rows_tools. unfold schema_rows.
  rewrite in_flat_map. split.
  - intros (t & cfg & Ht & <- & Hp & <- & <-).
    exists t. split; [exact Ht |].
    apply in_map_iff. exists (param, cfg). split; [reflexivity | exact Hp].
  - intros (t & Ht & Hrow). apply in_map_iff in Hrow.
    destruct Hrow as ([p cfg] & Heq & Hp). simpl in Heq.
    injection Heq as <- <- <- <-. exists t, cfg. repeat split; assumption.
Qed.

(** ** The tool executor *)

Lemma executeTool_nothing_selected st net log :
  MCPInterface.selectedTool st = EmptyString ->
  MCPInterface.executeTool st net log = (inr st, log).
Proof. intros H. unfold MCPInterface.executeTool. rewrite H. reflexivity. Qed.

Lemma executeTool_selected st net :
  MCPInterface.selectedTool st <> EmptyString ->
  issued (MCPInterface.executeTool st) net = [mcp_request st]
  /\ exists st',
       outcome (MCPInterface.executeTool st) net = inr st'
       /\ MCPInterface.selectedTool st' = MCPInterface.selectedTool st
       /\ MCPInterface.toolParams st' = MCPInterface.toolParams st
       /\ MCPInterface.isExecuting st' = false
       /\ (forall r, net (mcp_request st) = inr r -> ok r = false ->
             MCPInterface.error st' = Some "Tool execution failed"
             /\ MCPInterface.result st' = MCPInterface.result st)
       /\ (forall r data, net (mcp_request st) = inr r -> ok r = true ->
             json r = inr data ->
             MCPInterface.error st' = None /\ MCPInterface.result st' = data).
Proof.
  intros Hsel. apply truthy_string_true in Hsel.
  unfold MCPInterface.executeTool, mcp_request. rewrite Hsel. simpl.
  run_async.
  destruct (net _) as [t | r] eqn:Hnet; simpl.
  - split; [reflexivity |]. eexists. split; [reflexivity |]. simpl.
    repeat split; intros; congruence.
  - destruct (ok r) eqn:Hok; simpl.
    + destruct (json r) as [t | data] eqn:Hjson; simpl;
        (split; [reflexivity |]); eexists; (split; [reflexivity |]); simpl;
        repeat split; intros; simplify_eq; congruence.
    + split; [reflexivity |]. eexists. split; [reflexivity |]. simpl.
      repeat split; intros; simplify_eq; congruence.
Qed.

(** The selection is the empty string or a name of the table in every
    state the user can reach: no other tool name is ever sent. *)
Lemma reachable_selection evs :
  MCPInterface.selectedTool (MCPInterface.run_events evs) = EmptyString
  \/ In (MCPInterface.selectedTool (MCPInterface.run_events evs)) spec_tool_names.
Proof.
  unfold MCPInterface.run_events.
  induction evs as [| ev evs IH] using rev_ind; [left; reflexivity |].
  rewrite foldl_app. simpl.
  set (st := foldl _ MCPInterface.initial evs) in *.
  destruct ev as [i | p v | net]; simpl.
  - destruct (MCPInterface.tools !! i) as [t |] eqn:Hi; [| exact IH].
    right. destruct i as [| [| [| [| i]]]]; simpl in Hi; simplify_eq;
      simpl; auto 10.
  - destruct (MCPInterface.selectedToolData st); [| exact IH].
    destruct (existsb _ _); exact IH.
  - destruct (MCPInterface.selectedToolData st); [| exact IH].
    destruct (decide (MCPInterface.selectedTool st = EmptyString)) as [He | Hne].
    + unfold outcome. rewrite (executeTool_nothing_selected _ _ _ He). exact IH.
    + destruct (executeTool_selected st net Hne) as (_ & st' & -> & -> & _). exact IH.
Qed.

(** C5 (amended). [executeTool] validates nothing itself.  With no tool
    selected it returns at once: no request, no error, state unchanged.
    With a tool selected it sends exactly one POST to /mcp/execute that
    carries the tool name and the parameters as they stand, and leaves
    the verdict to the engine: an answer that is not ok is reported as
    "Tool execution failed", an ok answer becomes the result and no
    error is reported. *)
Theorem C5_executeTool_forwards_invocation :
  forall (st : MCPInterface.State) (net : Net),
    (MCPInterface.selectedTool st = EmptyString ->
       MCPInterface.executeTool st net [] = (inr st, []))
    /\ (MCPInterface.selectedTool st <> EmptyString ->
          issued (MCPInterface.executeTool st) net = [mcp_request st]
          /\ exists st',
               outcome (MCPInterface.executeTool st) net = inr st'
               /\ MCPInterface.selectedTool st' = MCPInterface.selectedTool st
               /\ MCPInterface.toolParams st' = MCPInterface.toolParams st
               /\ MCPInterface.isExecuting st' = false
               /\ (forall r, net (mcp_request st) = inr r -> ok r = false ->
                     MCPInterface.error st' = Some "Tool execution failed"
                     /\ MCPInterface.result st' = MCPInterface.result st)
               /\ (forall r data, net (mcp_request st) = inr r -> ok r = true ->
                     json r = inr data ->
                     MCPInterface.error st' = None
                     /\ MCPInterface.result st' = data)).
Proof.
  intros st net. split.
  - apply executeTool_nothing_selected.
  - apply executeTool_selected.
Qed.

Lemma C5_executeTool_forwards_invocation_witness :
  (MCPInterface.selectedTool enhance_prompt_selected = EmptyString ->
     MCPInterface.executeTool enhance_prompt_selected refusing_engine []
     = (inr enhance_prompt_selected, []))
  /\ (MCPInterface.selectedTool enhance_prompt_selected <> EmptyString ->
        issued (MCPInterface.executeTool enhance_prompt_selected) refusing_engine
        = [mcp_request enhance_prompt_selected]
        /\ exists st',
             outcome (MCPInterface.executeTool enhance_prompt_selected) refusing_engine
             = inr st'
             /\ MCPInterface.selectedTool st'
                = MCPInterface.selectedTool enhance_prompt_selected
             /\ MCPInterface.toolParams st'
                = MCPInterface.toolParams enhance_prompt_selected
             /\ MCPInterface.isExecuting st' = false
             /\ (forall r, refusing_engine (mcp_request enhance_prompt_selected) = inr r ->
                   ok r = false ->
                   MCPInterface.error st' = Some "Tool execution failed"
                   /\ MCPInterface.result st'
                      = MCPInterface.result enhance_prompt_selected)
             /\ (forall r data,
                   refusing_engine (mcp_request enhance_prompt_selected) = inr r ->
                   ok r = true -> json r = inr data ->
                   MCPInterface.error st' = None
                   /\ MCPInterface.result st' = data)).
Proof.
  exact (C5_executeTool_forwards_invocation enhance_prompt_selected refusing_engine).
Defined.

(** enhance_prompt without its required prompt is not rejected by the
    client: the invocation is sent and, if the engine accepts it, ends
    without any error; with nothing selected no error is raised either. *)
Lemma C5_counterexample :
  spec_validate (MCPInterface.selectedTool enhance_prompt_selected)
                (MCPInterface.toolParams enhance_prompt_selected)
  = Some (MissingParameter "prompt")
  /\ issued (MCPInterface.executeTool enhance_prompt_selected) accepting_engine
     = [mcp_request enhance_prompt_selected]
  /\ ~ rejected_before_dispatch enhance_prompt_selected accepting_engine
  /\ spec_validate (MCPInterface.selectedTool MCPInterface.initial)
                   (MCPInterface.toolParams MCPInterface.initial)
     = Some UnknownTool
  /\ ~ rejected_before_dispatch MCPInterface.initial accepting_engine.
Proof.
  split; [vm_compute; reflexivity |].
  split; [reflexivity |].
  split; [intros [Hsent _]; vm_compute in Hsent; discriminate |].
  split; [vm_compute; reflexivity |].
  intros [_ (st' & msg & Hout & Herr)].
  vm_compute in Hout. injection Hout as <-. discriminate Herr.
Qed.

(** ** The upload form *)

Lemma submit_refused_false st :
  TrainingDataUpload.submit_refused st = false ->
  TrainingDataUpload.styleTags (TrainingDataUpload.formData st) <> []
  /\ TrainingDataUpload.character (TrainingDataUpload.formData st) <> EmptyString
  /\ exists image, TrainingDataUpload.selectedImage st = Some image
                   /\ image <> EmptyString.
Proof.
  unfold TrainingDataUpload.submit_refused, TrainingDataUpload.no_image.
  intros H. apply orb_false_elim in H as [H Htags].
  apply orb_false_elim in H as [Himg Hchar].
  apply negb_false_iff, truthy_string_true in Hchar.
  split; [| split; [exact Hchar |]].
  - intros E. rewrite E in Htags. discriminate.
  - destruct (TrainingDataUpload.selectedImage st) as [image |]; [| discriminate].
    exists image. split; [reflexivity |].
    apply negb_false_iff, truthy_string_true in Himg. exact Himg.
Qed.

Lemma submit_refused_no_tags st :
  TrainingDataUpload.styleTags (TrainingDataUpload.formData st) = [] ->
  TrainingDataUpload.submit_refused st = true.
Proof.
  intros H. unfold TrainingDataUpload.submit_refused. rewrite H. simpl.
  apply orb_true_r.
Qed.

(** C7. The upload form lets no training reference through without a
    style tag (or without a character): a submission whose style tags
    are empty is refused with the validation message before any request
    is issued, the submit button is disabled for it, and every upload
    request the form does issue carries a non-empty [style_tags] array, a
    non-empty character and a non-empty image. *)
Theorem C7_upload_requires_style_tags :
  forall (st : TrainingDataUpload.State) (net : Net),
    (TrainingDataUpload.styleTags (TrainingDataUpload.formData st) = [] ->
       issued (TrainingDataUpload.handleSubmit st) net = []
       /\ outcome (TrainingDataUpload.handleSubmit st) net
          = inr (TrainingDataUpload.set_error
                   (Some TrainingDataUpload.validation_message) st)
       /\ TrainingDataUpload.submit_disabled st = true)
    /\ (forall req, In req (issued (TrainingDataUpload.handleSubmit st) net) ->
          exists tags image,
            tags <> [] /\ image <> EmptyString
            /\ TrainingDataUpload.styleTags (TrainingDataUpload.formData st) = tags
            /\ TrainingDataUpload.character (TrainingDataUpload.formData st)
               <> EmptyString
            /\ url req = TrainingDataUpload.upload_url
            /\ body (init req)
               = Some (TrainingDataUpload.payload
                         (TrainingDataUpload.formData st) image)
            /\ obj_get "style_tags"
                 (match TrainingDataUpload.payload
                          (TrainingDataUpload.formData st) image with
                  | JObj fields => fields
                  | _ => []
                  end)
               = Some (JArr (map JStr tags))).
Proof.
  intros st net. split.
  - intros Hno. pose proof (submit_refused_no_tags st Hno) as Href.
    unfold issued, outcome, TrainingDataUpload.handleSubmit. rewrite Href. simpl.
    split; [reflexivity |]. split; [reflexivity |].
    unfold TrainingDataUpload.submit_disabled.
    unfold TrainingDataUpload.submit_refused in Href.
    rewrite <- !orb_assoc in *. rewrite Href. apply orb_true_r.
  - intros req Hin.
    destruct (handleSubmit_log st) as [[_ Hs] | [Href Hi]].
    + rewrite (silent_issued _ net Hs) in Hin. destruct Hin.
    + rewrite (issues_issued _ _ net Hi) in Hin.
      destruct Hin as [<- | []].
      destruct (submit_refused_false st Href) as (Htags & Hchar & image & Himg & Hne).
      exists (TrainingDataUpload.styleTags (TrainingDataUpload.formData st)), image.
      repeat split; try assumption; try reflexivity.
      simpl. rewrite Himg. reflexivity.
Qed.

Lemma C7_upload_requires_style_tags_witness :
  exists tags image,
    tags <> [] /\ image <> EmptyString
    /\ TrainingDataUpload.styleTags (TrainingDataUpload.formData filled_form) = tags
    /\ TrainingDataUpload.character (TrainingDataUpload.formData filled_form)
       <> EmptyString
    /\ url (TrainingDataUpload.upload_request filled_form)
       = TrainingDataUpload.upload_url
    /\ body (init (TrainingDataUpload.upload_request filled_form))
       = Some (TrainingDataUpload.payload
                 (TrainingDataUpload.formData filled_form) image)
    /\ obj_get "style_tags"
         (match TrainingDataUpload.payload
                  (TrainingDataUpload.formData filled_form) image with
          | JObj fields => fields
          | _ => []
          end)
       = Some (JArr (map JStr tags)).
Proof.
  apply (proj2 (C7_upload_requires_style_tags filled_form accepting_engine)
               (TrainingDataUpload.upload_request filled_form)).
  left. reflexivity.
Defined.

(** ** Rating a sprite *)

Lemma update_rating_lookup now id rating feedback prev i s :
  prev !! i = Some s ->
  App.update_rating now id rating feedback prev !! i
  = Some (if String.eqb (Sprite.id s) id
          then App.rated now i rating feedback s else s).
Proof.
  intros H. unfold App.update_rating.
  rewrite list_lookup_imap, H. reflexivity.
Qed.

(** C10. The local update of [handleRatingChange] keeps the length and
    the order of the sprite list; the sprite at each position keeps its
    id, character, pose, style, image and creation date; a sprite whose id
    differs from the given one is left exactly as it was, and a sprite with
    the given id gets the new rating, the new feedback and a fresh
    updatedAt.  After the handler the list is either the updated one or,
    when the server call failed, the old one. *)
Theorem C10_rating_update_frame :
  forall (base : string) (now : nat -> string) (id : string) (rating : Z)
         (feedback : option string) (st : App.State) (net : Net)
         (i : nat) (s : Sprite.t),
    App.sprites st !! i = Some s ->
    let updated := App.update_rating now id rating feedback (App.sprites st) in
    length updated = length (App.sprites st)
    /\ (exists s',
          updated !! i = Some s'
          /\ Sprite.id s' = Sprite.id s
          /\ Sprite.character s' = Sprite.character s
          /\ Sprite.pose s' = Sprite.pose s
          /\ Sprite.style s' = Sprite.style s
          /\ Sprite.imageBase64 s' = Sprite.imageBase64 s
          /\ Sprite.createdAt s' = Sprite.createdAt s
          /\ (Sprite.id s <> id -> s' = s)
          /\ (Sprite.id s = id ->
                Sprite.rating s' = rating
                /\ Sprite.feedback s' = feedback
                /\ Sprite.updatedAt s' = Some (now i)))
    /\ (exists st',
          outcome (App.handleRatingChange base now id rating feedback st) net
          = inr st'
          /\ (App.sprites st' = updated \/ App.sprites st' = App.sprites st)).
Proof.
  intros base now id rating feedback st net i s Hi updated.
  split; [| split].
  - unfold updated, App.update_rating. apply length_imap.
  - unfold updated. rewrite (update_rating_lookup _ _ _ _ _ _ _ Hi).
    destruct (String.eqb_spec (Sprite.id s) id) as [He | Hne].
    + eexists. split; [reflexivity |]. simpl.
      repeat (split; [reflexivity |]).
      split; [intros Hc; contradiction | intros _; repeat split].
    + exists s. repeat (split; [reflexivity |]).
      intros Hc. contradiction.
  - unfold outcome, App.handleRatingChange, try_catch.
    destruct (bind _ _ net []) as [[t | u] log] eqn:E; simpl.
    + eexists. split; [reflexivity |]. right. reflexivity.
    + unfold bind in E.
      destruct (updateSpriteRating base id rating feedback net []) as [[t' | []] log'];
        simpl in E; [discriminate |].
      injection E as <- <-. eexists. split; [reflexivity |]. left. reflexivity.
Qed.

Lemma C10_rating_update_frame_witness :
  let updated := App.update_rating sample_clock "1700000000002" 5 None sample_gallery in
  length updated = length sample_gallery
  /\ (exists s',
        updated !! 1%nat = Some s'
        /\ Sprite.id s' = "1700000000002"
        /\ Sprite.character s' = "Knight"
        /\ Sprite.pose s' = "idle"
        /\ Sprite.style s' = "pixel art"
        /\ Sprite.imageBase64 s' = "iVBORw0KGgo="
        /\ Sprite.createdAt s' = "2024-01-01T00:00:00.000Z"
        /\ (Sprite.id (sample_sprite "1700000000002" "Knight" 3) <> "1700000000002" ->
              s' = sample_sprite "1700000000002" "Knight" 3)
        /\ (Sprite.id (sample_sprite "1700000000002" "Knight" 3) = "1700000000002" ->
              Sprite.rating s' = 5%Z
              /\ Sprite.feedback s' = None
              /\ Sprite.updatedAt s' = Some (sample_clock 1%nat)))
  /\ (exists st',
        outcome (App.handleRatingChange "http://localhost:5000" sample_clock
                   "1700000000002" 5 None sample_app)
                accepting_engine
        = inr st'
        /\ (App.sprites st' = updated \/ App.sprites st' = sample_gallery)).
Proof.
  apply (C10_rating_update_frame "http://localhost:5000" sample_clock
           "1700000000002" 5 None sample_app
           accepting_engine 1%nat (sample_sprite "1700000000002" "Knight" 3)).
  reflexivity.
Defined.

(** ** The tag matcher *)

Section Matcher.
Import TagMatcher.
Local Open Scope Q_scope.



















End Matcher.



(** A style tag of two words never overlaps with the tokens of a style:
    the reference whose only tag is the request's style, with the same
    character and pose, scores 13/20. *)
Lemma multi_word_tag_scores_below_one :
  (TagMatcher.score TagMatcher.pixel_knight_request TagMatcher.pixel_knight
   == 13 # 20)%Q.
Proof. vm_compute. reflexivity. Qed.

(** When neither side gives a pose, the pose term contributes 0.5 and an
    otherwise identical reference scores 37/40. *)
Lemma no_pose_scores_below_one :
  (TagMatcher.score
     {| TagMatcher.t_character := "mage"; TagMatcher.t_pose := None;
        TagMatcher.t_style := Some "Fire anime" |}
     {| TagMatcher.character := "Mage"; TagMatcher.pose := None;
        TagMatcher.style_tags := ["anime"; "fire"];
        TagMatcher.character_tags := []; TagMatcher.prompt := "a fire mage";
        TagMatcher.rating := None; TagMatcher.uploaded_at := 0 |}
   == 37 # 40)%Q.
Proof. vm_compute. reflexivity. Qed.


(** * Further properties of the client *)

(** ** Strings *)

Lemma occurs_app c a b : occurs c (a +:+ b) = occurs c a || occurs c b.
Proof.
  induction a as [| x a IH]; simpl; [reflexivity |].
  rewrite IH. apply orb_assoc.
Qed.

Lemma prefix_nonempty c needle hay :
  String.prefix (String c needle) hay = true -> occurs c hay = true.
Proof.
  destruct hay as [| a hay]; simpl; [discriminate |].
  destruct (ascii_dec c a) as [-> | Hne]; [| discriminate].
  intros _. rewrite Ascii.eqb_refl. reflexivity.
Qed.

(** A needle can only be found where its first character occurs. *)
Lemma includes_first_char c needle hay :
  occurs c hay = false -> includes (String c needle) hay = false.
Proof.
  induction hay as [| a hay IH]; intros Hocc.
  - reflexivity.
  - cbn [includes]. simpl in Hocc. apply orb_false_elim in Hocc as [Hca Hrest].
    rewrite (IH Hrest), orb_false_r.
    destruct (String.prefix (String c needle) (String a hay)) eqn:E; [| reflexivity].
    apply prefix_nonempty in E. simpl in E. rewrite Hca, Hrest in E. discriminate.
Qed.

Lemma pretty_N_char_digit x : is_digit (pretty_N_char x) = true.
Proof. unfold pretty_N_char. repeat case_match; reflexivity. Qed.

Lemma pretty_N_go_digits c x s :
  is_digit c = false -> occurs c s = false -> occurs c (pretty_N_go x s) = false.
Proof.
  intros Hc. revert s. induction (N.lt_wf_0 x) as [x _ IH]; intros s Hs.
  assert (x = 0 \/ 0 < x)%N as [-> | Hpos] by lia.
  - rewrite pretty_N_go_0. exact Hs.
  - rewrite pretty_N_go_step by exact Hpos. apply IH.
    + apply N.div_lt; [exact Hpos | reflexivity].
    + simpl. rewrite Hs, orb_false_r.
      destruct (Ascii.eqb_spec c (pretty_N_char (x `mod` 10))) as [-> |]; [| reflexivity].
      rewrite pretty_N_char_digit in Hc. discriminate.
Qed.

Lemma pretty_nat_digits c (n : nat) :
  is_digit c = false -> occurs c (pretty n) = false.
Proof.
  intros Hc. unfold pretty, pretty_nat, pretty, pretty_N.
  case_decide.
  - simpl. rewrite orb_false_r.
    destruct (Ascii.eqb_spec c "0"%char) as [-> |]; [discriminate | reflexivity].
  - apply pretty_N_go_digits; [exact Hc | reflexivity].
Qed.

(** The fallback message of an HTTP error is never taken for a network
    failure. *)
Lemma http_status_message_kept (n : nat) :
  mentions_network_failure ("HTTP error! status: " +:+ pretty n) = false.
Proof.
  unfold mentions_network_failure.
  rewrite !includes_first_char; [reflexivity | |];
    rewrite occurs_app, pretty_nat_digits by reflexivity; reflexivity.
Qed.

(** ** [fetchWithErrorHandling]: what reaches the caller *)

Lemma rethrow_surfaced {A} (t : Thrown) net log :
  rethrow_with_better_message (A := A) t net log = (inl (surfaced t), log).
Proof.
  unfold rethrow_with_better_message, surfaced, is_abort, mentions_network_failure.
  destruct t as [e |]; [| reflexivity].
  destruct (_ || _); [reflexivity |].
  destruct (_ || _); reflexivity.
Qed.

Lemma fetchWithErrorHandling_rejected u options net log t :
  net (wrapped_request u options) = inl t ->
  fetchWithErrorHandling u options net log
  = (inl (surfaced t), log ++ [wrapped_request u options]).
Proof.
  intros H. unfold fetchWithErrorHandling, wrapped_request in *.
  unfold try_catch, bind, fetch. rewrite H. apply rethrow_surfaced.
Qed.

Lemma fetchWithErrorHandling_ok u options net log r :
  net (wrapped_request u options) = inr r -> ok r = true ->
  fetchWithErrorHandling u options net log
  = (inr r, log ++ [wrapped_request u options]).
Proof.
  intros H Hok. unfold fetchWithErrorHandling, wrapped_request in *.
  unfold try_catch, bind, fetch. rewrite H, Hok. reflexivity.
Qed.

Lemma fetchWithErrorHandling_not_ok u options net log r :
  net (wrapped_request u options) = inr r -> ok r = false ->
  fetchWithErrorHandling u options net log
  = (inl (surfaced (http_error_of "HTTP error! status: " r)),
     log ++ [wrapped_request u options]).
Proof.
  intros H Hok. unfold fetchWithErrorHandling, wrapped_request, http_error_of in *.
  unfold try_catch at 1. unfold bind at 1. unfold fetch. rewrite H, Hok.
  cbn -[rethrow_with_better_message]. unfold bind, try_catch, await.
  destruct (json r) as [t | data]; cbn -[rethrow_with_better_message].
  - apply rethrow_surfaced.
  - destruct (member "error" data) as [t | e];
      cbn -[rethrow_with_better_message]; apply rethrow_surfaced.
Qed.

(** X1. [fetchWithErrorHandling] hands a response to its caller exactly
    when the fetch produced one and that response is ok; a response that
    is not ok never reaches the caller. *)
Theorem X1_fetchWithErrorHandling_returns_ok_responses_only :
  forall (u : string) (options : option RequestInit) (net : Net) (r : Response),
    outcome (fetchWithErrorHandling u options) net = inr r
    <-> net (wrapped_request u options) = inr r /\ ok r = true.
Proof.
  intros u options net r. unfold outcome. split.
  - destruct (net (wrapped_request u options)) as [t | r'] eqn:Hnet.
    + rewrite (fetchWithErrorHandling_rejected _ _ _ _ _ Hnet). discriminate.
    + destruct (ok r') eqn:Hok.
      * rewrite (fetchWithErrorHandling_ok _ _ _ _ _ Hnet Hok). simpl.
        intros [= ->]. split; [reflexivity | exact Hok].
      * rewrite (fetchWithErrorHandling_not_ok _ _ _ _ _ Hnet Hok). discriminate.
  - intros [Hnet Hok]. rewrite (fetchWithErrorHandling_ok _ _ _ _ _ Hnet Hok).
    reflexivity.
Qed.

(** X2. A fetch rejected with an Error that is not an abort and whose
    message contains "Failed to fetch" or "NetworkError" reaches the
    caller as the cannot-connect error; an Error without those words, and
    a thrown value that is not an Error, reach the caller unchanged. *)
Theorem X2_fetchWithErrorHandling_network_failures :
  forall (u : string) (options : option RequestInit) (net : Net) (t : Thrown),
    net (wrapped_request u options) = inl t ->
    (forall e, t = ThrownError e -> is_abort e = false) ->
    (forall e, t = ThrownError e ->
               mentions_network_failure (err_message e) = true ->
               outcome (fetchWithErrorHandling u options) net
               = inl (ThrownError (new_Error cannot_connect_message)))
    /\ ((forall e, t = ThrownError e ->
                   mentions_network_failure (err_message e) = false) ->
        outcome (fetchWithErrorHandling u options) net = inl t).
Proof.
  intros u options net t Hnet Habort. unfold outcome.
  rewrite (fetchWithErrorHandling_rejected _ _ _ _ _ Hnet). simpl. split.
  - intros e -> Hm. simpl. rewrite (Habort e eq_refl), Hm. reflexivity.
  - intros Hno. destruct t as [e |]; [| reflexivity].
    simpl. rewrite (Habort e eq_refl), (Hno e eq_refl). reflexivity.
Qed.

Lemma X2_fetchWithErrorHandling_network_failures_witness :
  (forall e, ThrownError {| err_name := "TypeError"; err_message := "Failed to fetch" |}
             = ThrownError e ->
             mentions_network_failure (err_message e) = true ->
             outcome (fetchWithErrorHandling "http://localhost:5000/health" None)
                     (fun _ => inl (ThrownError {| err_name := "TypeError";
                                                   err_message := "Failed to fetch" |}))
             = inl (ThrownError (new_Error cannot_connect_message)))
  /\ ((forall e, ThrownError {| err_name := "TypeError"; err_message := "Failed to fetch" |}
                 = ThrownError e ->
                 mentions_network_failure (err_message e) = false) ->
      outcome (fetchWithErrorHandling "http://localhost:5000/health" None)
              (fun _ => inl (ThrownError {| err_name := "TypeError";
                                            err_message := "Failed to fetch" |}))
      = inl (ThrownError {| err_name := "TypeError"; err_message := "Failed to fetch" |})).
Proof.
  apply (X2_fetchWithErrorHandling_network_failures
           "http://localhost:5000/health" None
           (fun _ => inl (ThrownError {| err_name := "TypeError";
                                         err_message := "Failed to fetch" |}))).
  - reflexivity.
  - intros e [= <-]. reflexivity.
Defined.

(** X3. On a response that is not ok, [fetchWithErrorHandling] throws an
    Error whose message is "Unknown error" when the body cannot be read
    as JSON, "HTTP error! status: N" when the JSON object has no [error]
    member, and otherwise the server's own non-empty [error] text -- unless
    that text contains "Failed to fetch" or "NetworkError", in which case
    the caller is told that the backend cannot be reached. *)
Theorem X3_fetchWithErrorHandling_http_errors :
  forall (u : string) (options : option RequestInit) (net : Net) (r : Response),
    net (wrapped_request u options) = inr r ->
    ok r = false ->
    (forall t, json r = inl t ->
       outcome (fetchWithErrorHandling u options) net
       = inl (ThrownError (new_Error "Unknown error")))
    /\ (forall fields, json r = inr (JObj fields) ->
          obj_get "error" fields = None ->
          outcome (fetchWithErrorHandling u options) net
          = inl (ThrownError (new_Error
                   ("HTTP error! status: " +:+ pretty (status r)))))
    /\ (forall fields e, json r = inr (JObj fields) ->
          obj_get "error" fields = Some (JStr e) -> e <> EmptyString ->
          outcome (fetchWithErrorHandling u options) net
          = inl (ThrownError (new_Error
                   (if mentions_network_failure e
                    then cannot_connect_message else e)))).
Proof.
  intros u options net r Hnet Hok. unfold outcome.
  rewrite (fetchWithErrorHandling_not_ok _ _ _ _ _ Hnet Hok). simpl.
  unfold http_error_of. repeat split.
  - intros t ->. reflexivity.
  - intros fields -> Hnone. simpl. rewrite Hnone. simpl.
    unfold is_abort. simpl. rewrite http_status_message_kept. reflexivity.
  - intros fields e -> Hsome Hne. simpl. rewrite Hsome. simpl.
    apply truthy_string_true in Hne. rewrite Hne.
    unfold is_abort. simpl. destruct (mentions_network_failure e); reflexivity.
Qed.

Lemma X3_fetchWithErrorHandling_http_errors_witness :
  (forall t, json {| ok := false; status := 404; json := inr (JObj []) |} = inl t ->
     outcome (fetchWithErrorHandling "http://localhost:5000/sprites/7" None)
             (fun _ => inr {| ok := false; status := 404; json := inr (JObj []) |})
     = inl (ThrownError (new_Error "Unknown error")))
  /\ (forall fields,
        json {| ok := false; status := 404; json := inr (JObj []) |} = inr (JObj fields) ->
        obj_get "error" fields = None ->
        outcome (fetchWithErrorHandling "http://localhost:5000/sprites/7" None)
                (fun _ => inr {| ok := false; status := 404; json := inr (JObj []) |})
        = inl (ThrownError (new_Error
                 ("HTTP error! status: "
                  +:+ pretty (status {| ok := false; status := 404;
                                        json := inr (JObj []) |})))))
  /\ (forall fields e,
        json {| ok := false; status := 404; json := inr (JObj []) |} = inr (JObj fields) ->
        obj_get "error" fields = Some (JStr e) -> e <> EmptyString ->
        outcome (fetchWithErrorHandling "http://localhost:5000/sprites/7" None)
                (fun _ => inr {| ok := false; status := 404; json := inr (JObj []) |})
        = inl (ThrownError (new_Error
                 (if mentions_network_failure e
                  then cannot_connect_message else e)))).
Proof.
  apply (X3_fetchWithErrorHandling_http_errors
           "http://localhost:5000/sprites/7" None
           (fun _ => inr {| ok := false; status := 404; json := inr (JObj []) |})
           {| ok := false; status := 404; json := inr (JObj []) |});
    reflexivity.
Defined.

(** ** The calls of [api.ts] *)

(** X4. [checkBackendHealth] never throws: it answers [true] exactly when
    the health request got an ok response whose JSON body has the member
    [status] equal to the string "healthy", and [false] in every other
    case (rejection, time-out, HTTP error, unreadable or other body). *)
Theorem X4_checkBackendHealth_total :
  forall (base : string) (net : Net),
    exists b : bool,
      outcome (checkBackendHealth base) net = inr b
      /\ (b = true <->
          exists r data,
            net (wrapped_request (base +:+ "/health") None) = inr r
            /\ ok r = true /\ json r = inr data
            /\ member "status" data = inr (Some (JStr "healthy"))).
Proof.
  intros base net. unfold outcome, checkBackendHealth.
  unfold try_catch at 1. unfold bind at 1.
  destruct (net (wrapped_request (base +:+ "/health") None)) as [t | r] eqn:Hnet.
  - rewrite (fetchWithErrorHandling_rejected _ _ _ _ _ Hnet). simpl.
    exists false. split; [reflexivity |]. split; [discriminate |].
    intros (r & data & H & _). discriminate H.
  - destruct (ok r) eqn:Hok.
    + rewrite (fetchWithErrorHandling_ok _ _ _ _ _ Hnet Hok).
      unfold bind, await.
      destruct (json r) as [t | data] eqn:Hjson; simpl.
      * exists false. split; [reflexivity |]. split; [discriminate |].
        intros (r' & data & H & _ & Hj & _).
        injection H as <-. congruence.
      * destruct (member "status" data) as [t | st] eqn:Hm; simpl.
        -- exists false. split; [reflexivity |]. split; [discriminate |].
           intros (r' & data' & H & _ & Hj & Hm').
           injection H as <-. congruence.
        -- exists (is_healthy st). split; [reflexivity |]. split.
           ++ intros Hh. exists r, data.
              split; [reflexivity |]. split; [exact Hok |].
              split; [exact Hjson |].
              unfold is_healthy in Hh.
              destruct st as [[| | | s | |] |]; try discriminate.
              apply String.eqb_eq in Hh. subst. exact Hm.
           ++ intros (r' & data' & H & _ & Hj & Hm').
              injection H as <-.
              assert (data' = data) as -> by congruence.
              assert (st = Some (JStr "healthy")) as -> by congruence.
              reflexivity.
    + rewrite (fetchWithErrorHandling_not_ok _ _ _ _ _ Hnet Hok). simpl.
      exists false. split; [reflexivity |]. split; [discriminate |].
      intros (r' & data & H & Hok' & _).
      injection H as <-. congruence.
Qed.

Lemma js_or_truthy (a : option Json) (b : Json) :
  truthy (Some b) = true -> truthy (Some (js_or a b)) = true.
Proof.
  intros Hb. unfold js_or. destruct a as [v |]; [| exact Hb].
  destruct (truthy (Some v)) eqn:E; [exact E | exact Hb].
Qed.

(** What a call that posts to the chat model returns, when it returns. *)
Lemma chat_call_returns base instruction fallback net v :
  outcome (let* response :=
             fetchWithErrorHandling (base ++ "/chat")
               (post (JObj [("prompt", JStr instruction)])) in
           let* data := await (json response) in
           let* output := await (member "output" data) in
           ret (js_or output fallback)) net = inr v ->
  exists output, v = js_or output fallback.
Proof.
  unfold outcome. unfold bind at 1.
  destruct (fetchWithErrorHandling _ _ net []) as [[t | r] log]; [discriminate |].
  unfold bind, await.
  destruct (json r) as [t | data]; [discriminate |]. simpl.
  destruct (member "output" data) as [t | output]; [discriminate |]. simpl.
  intros [= <-]. exists output. reflexivity.
Qed.

(** X5. Whatever the chat model answers, [sendChat] never returns an
    empty reply: a value it returns is truthy, the apology "Sorry, I
    could not process your request." taking the place of a missing, null
    or empty output. *)
Theorem X5_sendChat_never_returns_empty :
  forall (base text : string) (net : Net) (v : Json),
    outcome (sendChat base text) net = inr v -> truthy (Some v) = true.
Proof.
  intros base text net v H. apply chat_call_returns in H as [output ->].
  apply js_or_truthy. reflexivity.
Qed.

Lemma X5_sendChat_never_returns_empty_witness :
  outcome (sendChat "http://localhost:5000" "hello") silent_chat
  = inr (JStr "Sorry, I could not process your request.")
  /\ truthy (Some (JStr "Sorry, I could not process your request.")) = true.
Proof.
  split; [reflexivity |].
  apply (X5_sendChat_never_returns_empty "http://localhost:5000" "hello" silent_chat).
  reflexivity.
Defined.

(** [enhancePrompt] can return an empty value only for an empty prompt. *)
Lemma enhancePrompt_empty_only_for_empty_prompt base text net v :
  outcome (enhancePrompt base text) net = inr v ->
  truthy (Some v) = true \/ (v = JStr EmptyString /\ text = EmptyString).
Proof.
  intros H. apply chat_call_returns in H as [output ->].
  destruct text as [| c text].
  - unfold js_or. destruct output as [o |]; [| right; split; reflexivity].
    destruct (truthy (Some o)) eqn:E; [left; exact E | right; split; reflexivity].
  - left. apply js_or_truthy. reflexivity.
Qed.


(** ** The persona calls *)

Lemma silent_throw_unless_ok fallback r : silent (PersonaApi.throw_unless_ok fallback r).
Proof. unfold PersonaApi.throw_unless_ok. repeat log_step. Qed.

Lemma persona_call_one_request url_encode (c : PersonaCall) net :
  persona_requests url_encode c net = [persona_request url_encode c].
Proof.
  destruct c; unfold persona_requests; apply issues_issued;
    unfold PersonaApi.createPersona, PersonaApi.fetchPersonas,
      PersonaApi.fetchPersona, PersonaApi.updatePersona,
      PersonaApi.deletePersona, PersonaApi.togglePersonaStatus,
      PersonaApi.getPersonaStats, persona_request;
    repeat first [ apply silent_throw_unless_ok | log_step ].
Qed.

(** X7. Each of the seven persona calls issues exactly one request,
    whatever the network does, and that request carries no abort signal:
    unlike the calls made through [fetchWithErrorHandling], whose request
    always carries the 10 s signal, a persona call has no time-out. *)
Theorem X7_persona_calls_single_request_without_timeout :
  forall (url_encode : string -> string) (c : PersonaCall) (net : Net),
    persona_requests url_encode c net = [persona_request url_encode c]
    /\ signal (init (persona_request url_encode c)) = None
    /\ forall u options, signal (init (wrapped_request u options)) = Some 10000%N.
Proof.
  intros enc c net. split; [apply persona_call_one_request |].
  split; [destruct c; reflexivity | reflexivity].
Qed.

Lemma throw_unless_ok_not_ok fallback r net log :
  ok r = false ->
  PersonaApi.throw_unless_ok fallback r net log = (inl (http_error_of fallback r), log).
Proof.
  intros Hok. unfold PersonaApi.throw_unless_ok, http_error_of. rewrite Hok.
  cbn. unfold bind, try_catch, await.
  destruct (json r) as [t | data]; cbn; [reflexivity |].
  destruct (member "error" data) as [t | e]; reflexivity.
Qed.

Lemma persona_thrown_rejected url_encode c net t :
  net (persona_request url_encode c) = inl t ->
  persona_thrown url_encode c net = Some t.
Proof.
  intros H. destruct c; unfold persona_thrown, thrown_by, outcome, persona_request in *;
    unfold PersonaApi.createPersona, PersonaApi.fetchPersonas,
      PersonaApi.fetchPersona, PersonaApi.updatePersona,
      PersonaApi.deletePersona, PersonaApi.togglePersonaStatus,
      PersonaApi.getPersonaStats;
    unfold bind at 1; unfold fetch; cbv zeta; rewrite H; reflexivity.
Qed.

Lemma persona_thrown_not_ok url_encode c net r :
  net (persona_request url_encode c) = inr r -> ok r = false ->
  exists fallback,
    persona_thrown url_encode c net = Some (http_error_of fallback r).
Proof.
  intros H Hok.
  destruct c; eexists; unfold persona_thrown, thrown_by, outcome, persona_request in *;
    unfold PersonaApi.createPersona, PersonaApi.fetchPersonas,
      PersonaApi.fetchPersona, PersonaApi.updatePersona,
      PersonaApi.deletePersona, PersonaApi.togglePersonaStatus,
      PersonaApi.getPersonaStats;
    unfold bind at 1; unfold fetch; cbv zeta; rewrite H;
    try (unfold bind at 1);
    rewrite (throw_unless_ok_not_ok _ _ _ _ Hok); reflexivity.
Qed.

(** X8. A persona call passes failures on as they are.  A rejected fetch
    reaches the caller unchanged (an abort is not turned into the
    time-out message, "Failed to fetch" not into the cannot-connect
    message), and on a response that is not ok whose JSON object carries a
    non-empty [error] text, the Error thrown has exactly that text, even
    when it mentions a network failure. *)
Theorem X8_persona_calls_pass_failures_on :
  forall (url_encode : string -> string) (c : PersonaCall) (net : Net),
    (forall t, net (persona_request url_encode c) = inl t ->
               persona_thrown url_encode c net = Some t)
    /\ (forall r fields e,
          net (persona_request url_encode c) = inr r -> ok r = false ->
          json r = inr (JObj fields) ->
          obj_get "error" fields = Some (JStr e) -> e <> EmptyString ->
          persona_thrown url_encode c net = Some (ThrownError (new_Error e))).
Proof.
  intros enc c net. split.
  - intros t. apply persona_thrown_rejected.
  - intros r fields e Hnet Hok Hjson Herr Hne.
    destruct (persona_thrown_not_ok enc c net r Hnet Hok) as [fallback ->].
    unfold http_error_of. rewrite Hjson. simpl. rewrite Herr. simpl.
    apply truthy_string_true in Hne. rewrite Hne. reflexivity.
Qed.

Lemma X8_persona_calls_pass_failures_on_witness :
  persona_thrown (fun x => x) (CallCreatePersona sample_persona) persona_conflict
  = Some (ThrownError (new_Error "NetworkError: name already taken")).
Proof.
  apply (proj2 (X8_persona_calls_pass_failures_on (fun x => x)
                  (CallCreatePersona sample_persona) persona_conflict)
               {| ok := false; status := 409;
                  json := inr (JObj [("error", JStr "NetworkError: name already taken")]) |}
               [("error", JStr "NetworkError: name already taken")]
               "NetworkError: name already taken");
    try reflexivity. discriminate.
Defined.

(** ** The handlers of [App] *)

Section AppHandlers.
Variable base : string.
Variable now : nat -> string.
Variable url_encode : string -> string.
Variable as_sprites : option Json -> list Sprite.t.

(** X9. [handleSpriteGenerated] always puts the new sprite at the head of
    the gallery, whether or not saving it succeeded, and never throws: a
    successful save leaves the rest of the state as it was, a failed one
    additionally reports the failure in [error]. *)
Theorem X9_handleSpriteGenerated_always_adds_sprite :
  forall (sprite : Sprite.t) (st : App.State) (net : Net),
    exists st',
      outcome (App.handleSpriteGenerated base sprite st) net = inr st'
      /\ App.sprites st' = sprite :: App.sprites st
      /\ App.activeTab st' = App.activeTab st
      /\ App.loading st' = App.loading st
      /\ App.backendConnected st' = App.backendConnected st
      /\ match outcome (saveSprite base sprite) net with
         | inr _ => App.error st' = App.error st
         | inl t => App.error st' = Some (message_or "Failed to save sprite" t)
         end.
Proof.
  intros sprite st net. unfold outcome, App.handleSpriteGenerated.
  unfold try_catch, bind.
  destruct (saveSprite base sprite net []) as [[t | u] log]; simpl;
    eexists; (split; [reflexivity |]); repeat split.
Qed.

(** X10. When the rating call fails, for whatever reason,
    [handleRatingChange] changes nothing but the error message: the
    sprites keep their ratings and feedback. *)
Theorem X10_failed_rating_changes_only_the_error :
  forall (id : string) (rating : Z) (feedback : option string)
         (st : App.State) (net : Net) (t : Thrown),
    outcome (updateSpriteRating base id rating feedback) net = inl t ->
    outcome (App.handleRatingChange base now id rating feedback st) net
    = inr (App.set_error (Some (message_or "Failed to update rating" t)) st).
Proof.
  intros id rating feedback st net t. unfold outcome, App.handleRatingChange.
  unfold try_catch, bind at 1.
  destruct (updateSpriteRating base id rating feedback net []) as [[t' | u] log];
    simpl; [| discriminate].
  intros [= ->]. reflexivity.
Qed.

End AppHandlers.

Lemma X10_failed_rating_changes_only_the_error_witness :
  outcome (updateSpriteRating "http://localhost:5000" "1700000000002" 5 None)
          always_times_out
  = inl (ThrownError (new_Error timeout_message))
  /\ outcome (App.handleRatingChange "http://localhost:5000" sample_clock
                "1700000000002" 5 None sample_app) always_times_out
     = inr (App.set_error
              (Some (message_or "Failed to update rating"
                       (ThrownError (new_Error timeout_message)))) sample_app).
Proof.
  split; [reflexivity |].
  apply (X10_failed_rating_changes_only_the_error "http://localhost:5000"
           sample_clock "1700000000002" 5 None sample_app always_times_out).
  reflexivity.
Defined.

Lemma checkBackendHealth_never_throws base net log :
  exists b log', checkBackendHealth base net log = (inr b, log').
Proof.
  unfold checkBackendHealth, try_catch.
  destruct (bind _ _ net log) as [[t | b] log']; eauto.
Qed.

Section AppLoading.
Variable base : string.
Variable url_encode : string -> string.
Variable as_sprites : option Json -> list Sprite.t.

(** X11. [loadSprites] never throws and always ends with [loading] off.
    When the sprites arrive they replace the list, the error is cleared
    and the backend is marked connected; when the call fails the list is
    kept, the failure's message is shown, and the backend is marked
    disconnected exactly when that message contains "connect", "fetch" or
    "backend". *)
Theorem X11_loadSprites_outcomes :
  forall (st : App.State) (net : Net),
    exists st',
      outcome (App.loadSprites base url_encode as_sprites st) net = inr st'
      /\ App.loading st' = false
      /\ match outcome (fetchSprites base url_encode App.newest_first) net with
         | inr fetched =>
             App.sprites st' = as_sprites fetched
             /\ App.error st' = None
             /\ App.backendConnected st' = Some true
         | inl t =>
             App.sprites st' = App.sprites st
             /\ App.error st' = Some (message_or "Failed to load sprites" t)
             /\ App.backendConnected st'
                = (if App.looks_like_connection_error
                        (message_or "Failed to load sprites" t)
                   then Some false else App.backendConnected st)
         end.
Proof.
  intros st net. unfold outcome, App.loadSprites.
  unfold bind at 1. unfold try_catch. unfold bind at 1.
  destruct (fetchSprites base url_encode App.newest_first net []) as [[t | v] log];
    cbn -[App.looks_like_connection_error].
  - destruct (App.looks_like_connection_error _); cbn;
      eexists; (split; [reflexivity |]); repeat split.
  - eexists. split; [reflexivity |]. repeat split.
Qed.

Lemma fetchSprites_timeout net :
  timed_out net
    (wrapped_request
       (base +:+ "/sprites?"
        +:+ params_toString url_encode (fetchSprites_params App.newest_first))
       (bodyless "GET")) ->
  outcome (fetchSprites base url_encode App.newest_first) net
  = inl (ThrownError (new_Error timeout_message)).
Proof.
  intros Ht. unfold outcome, fetchSprites.
  destruct (timeout_propagates _ _ net [] Ht) as (_ & _ & E).
  rewrite E. reflexivity.
Qed.

(** X12. A time-out while loading the gallery never makes [loadSprites]
    throw, leaves the sprites as they were and ends with [loading] off.
    What is shown depends on the moment the 10 s signal fires.  Before
    the response arrives: the time-out message, and the backend is marked
    as disconnected (the message contains the word "backend").  While the
    body of an ok response is read: the message of the abort itself, and
    the backend is marked as disconnected only if that message contains
    "connect", "fetch" or "backend".  While the body of a response that
    is not ok is read: "Unknown error", and the backend flag stays as it
    was. *)
Theorem X12_loadSprites_timeout_outcomes :
  forall (st : App.State) (net : Net),
    times_out net
      (wrapped_request
         (base +:+ "/sprites?"
          +:+ params_toString url_encode (fetchSprites_params App.newest_first))
         (bodyless "GET")) ->
    exists st',
      outcome (App.loadSprites base url_encode as_sprites st) net = inr st'
      /\ App.sprites st' = App.sprites st
      /\ App.loading st' = false
      /\ match net (wrapped_request
                      (base +:+ "/sprites?"
                       +:+ params_toString url_encode
                             (fetchSprites_params App.newest_first))
                      (bodyless "GET")) with
         | inl _ =>
             App.error st' = Some timeout_message
             /\ App.backendConnected st' = Some false
         | inr r =>
             if ok r
             then exists e,
                 json r = inl (ThrownError e)
                 /\ App.error st' = Some (err_message e)
                 /\ App.backendConnected st'
                    = (if App.looks_like_connection_error (err_message e)
                       then Some false else App.backendConnected st)
             else App.error st' = Some "Unknown error"
                  /\ App.backendConnected st' = App.backendConnected st
         end.
Proof.
  intros st net [Ht | (r & e & Hnet & Hjson & Habort)].
  - pose proof (fetchSprites_timeout net Ht) as E.
    destruct Ht as (e & -> & _).
    unfold outcome in *. unfold App.loadSprites.
    unfold bind at 1. unfold try_catch. unfold bind at 1.
    destruct (fetchSprites base url_encode App.newest_first net []) as [[t | v] log];
      simpl in E; [| discriminate].
    injection E as ->. eexists. split; [reflexivity |]. repeat split.
  - rewrite Hnet.
    unfold outcome, App.loadSprites, fetchSprites.
    unfold bind at 1. unfold try_catch. unfold bind at 1. unfold bind at 1.
    destruct (ok r) eqn:Hok.
    + rewrite (fetchWithErrorHandling_ok _ _ net [] r Hnet Hok).
      unfold bind, await. rewrite Hjson. cbn -[App.looks_like_connection_error].
      destruct (App.looks_like_connection_error (err_message e)) eqn:El; cbn;
        (eexists; split; [reflexivity |]); repeat split;
        exists e; rewrite El; repeat split.
    + rewrite (fetchWithErrorHandling_not_ok _ _ net [] r Hnet Hok).
      unfold http_error_of. rewrite Hjson. cbn.
      eexists. split; [reflexivity |]. repeat split.
Qed.

(** X13. [checkBackendConnection] never throws; it records the verdict of
    the health check in [backendConnected] and reports an unhealthy or
    unreachable backend as "not responding".  Since [checkBackendHealth]
    already answers [false] for every failure, the handler's own
    "Cannot connect" branch is never taken. *)
Theorem X13_checkBackendConnection_records_health :
  forall (st : App.State) (net : Net),
    exists (st' : App.State) (healthy : bool),
      outcome (App.checkBackendConnection base st) net = inr st'
      /\ outcome (checkBackendHealth base) net = inr healthy
      /\ App.backendConnected st' = Some healthy
      /\ App.error st'
         = (if healthy then App.error st else Some App.not_responding_message)
      /\ App.sprites st' = App.sprites st.
Proof.
  intros st net. unfold outcome, App.checkBackendConnection.
  unfold try_catch at 1. unfold bind at 1.
  destruct (checkBackendHealth_never_throws base net []) as (b & log & ->).
  simpl. exists (if negb b
                 then App.set_error (Some App.not_responding_message)
                        (App.set_backendConnected (Some b) st)
                 else App.set_backendConnected (Some b) st), b.
  destruct b; repeat split.
Qed.

End AppLoading.

Lemma X12_loadSprites_timeout_outcomes_witness :
  times_out stalled_ok_body
    (wrapped_request
       ("http://localhost:5000" +:+ "/sprites?"
        +:+ params_toString (fun x => x) (fetchSprites_params App.newest_first))
       (bodyless "GET"))
  /\ exists st',
       outcome (App.loadSprites "http://localhost:5000" (fun x => x)
                  (fun _ => []) sample_app) stalled_ok_body = inr st'
       /\ App.sprites st' = App.sprites sample_app
       /\ App.loading st' = false
       /\ exists e,
            inl (ThrownError {| err_name := "TimeoutError";
                                err_message := "signal timed out" |})
            = (inl (ThrownError e) : Thrown + Json)
            /\ App.error st' = Some (err_message e)
            /\ App.backendConnected st'
               = (if App.looks_like_connection_error (err_message e)
                  then Some false else App.backendConnected sample_app).
Proof.
  assert (times_out stalled_ok_body
            (wrapped_request
               ("http://localhost:5000" +:+ "/sprites?"
                +:+ params_toString (fun x => x)
                      (fetchSprites_params App.newest_first))
               (bodyless "GET"))) as Ht.
  { right. eexists _, _. split; [reflexivity |]. split; reflexivity. }
  split; [exact Ht |].
  exact (X12_loadSprites_timeout_outcomes "http://localhost:5000"
           (fun x => x) (fun _ => []) sample_app stalled_ok_body Ht).
Defined.

(** With the message browsers give the abort, a time-out during the body
    read of an ok answer leaves the backend marked as it was. *)
Example body_read_timeout_keeps_backend_flag :
  exists st',
    outcome (App.loadSprites "http://localhost:5000" (fun x => x)
               (fun _ => []) sample_app) stalled_ok_body = inr st'
    /\ App.error st' = Some "signal timed out"
    /\ App.backendConnected st' = App.backendConnected sample_app.
Proof. eexists. split; [reflexivity |]. split; reflexivity. Qed.

(** ** Ratings *)

Lemma update_rating_lookup_fmap now id rating feedback l i :
  App.update_rating now id rating feedback l !! i
  = (fun s => if String.eqb (Sprite.id s) id
              then App.rated now i rating feedback s else s) <$> l !! i.
Proof. unfold App.update_rating. apply list_lookup_imap. Qed.

(** X14. Rating updates compose as one expects of assignments: of two
    updates of the same id the later one wins (rating, feedback and time
    stamp), and updates of different ids can be applied in either order. *)
Theorem X14_rating_updates_compose :
  forall (now now' : nat -> string) (id1 id2 : string) (r1 r2 : Z)
         (f1 f2 : option string) (l : list Sprite.t),
    App.update_rating now' id1 r2 f2 (App.update_rating now id1 r1 f1 l)
    = App.update_rating now' id1 r2 f2 l
    /\ (id1 <> id2 ->
        App.update_rating now id1 r1 f1 (App.update_rating now' id2 r2 f2 l)
        = App.update_rating now' id2 r2 f2 (App.update_rating now id1 r1 f1 l)).
Proof.
  intros now now' id1 id2 r1 r2 f1 f2 l. split.
  - apply list_eq. intros i. rewrite !update_rating_lookup_fmap.
    destruct (l !! i) as [s |]; [| reflexivity]. simpl. f_equal.
    destruct (Sprite.id s =? id1)%string eqn:E1; simpl; rewrite ?E1; reflexivity.
  - intros Hdiff. apply list_eq. intros i. rewrite !update_rating_lookup_fmap.
    destruct (l !! i) as [s |]; [| reflexivity]. simpl. f_equal.
    destruct (Sprite.id s =? id1)%string eqn:E1;
      destruct (Sprite.id s =? id2)%string eqn:E2; simpl; rewrite ?E1, ?E2;
      try reflexivity.
    apply String.eqb_eq in E1, E2. congruence.
Qed.

Lemma X14_rating_updates_compose_witness :
  App.update_rating sample_clock "1700000000001" 4 None
    (App.update_rating sample_clock "1700000000002" 5 None sample_gallery)
  = App.update_rating sample_clock "1700000000002" 5 None
      (App.update_rating sample_clock "1700000000001" 4 None sample_gallery).
Proof.
  apply (X14_rating_updates_compose sample_clock sample_clock
           "1700000000001" "1700000000002" 4 5 None None sample_gallery).
  discriminate.
Defined.

(** X15. Rating an id that no sprite of the list carries changes nothing
    locally. *)
Theorem X15_rating_unknown_id_changes_nothing :
  forall (now : nat -> string) (id : string) (rating : Z)
         (feedback : option string) (l : list Sprite.t),
    (forall s, In s l -> Sprite.id s <> id) ->
    App.update_rating now id rating feedback l = l.
Proof.
  intros now id rating feedback l Hno. apply list_eq. intros i.
  rewrite update_rating_lookup_fmap.
  destruct (l !! i) as [s |] eqn:Hi; [| reflexivity]. simpl. f_equal.
  assert (Sprite.id s <> id) as Hne.
  { apply Hno, list_elem_of_In, list_elem_of_lookup. eauto. }
  apply String.eqb_neq in Hne. rewrite Hne. reflexivity.
Qed.

Lemma X15_rating_unknown_id_changes_nothing_witness :
  App.update_rating sample_clock "42" 5 None sample_gallery = sample_gallery.
Proof.
  apply (X15_rating_unknown_id_changes_nothing sample_clock "42" 5 None sample_gallery).
  intros s [<- | [<- | []]]; discriminate.
Defined.

(** X16. A star clicked in the gallery calls [handleRatingChange] without
    feedback.  The PUT body then carries the rating alone, and once the
    call has succeeded every sprite with that id has the new rating and no
    feedback left in the local list, whatever feedback it showed before. *)
Theorem X16_gallery_rating_drops_local_feedback :
  forall (base : string) (now : nat -> string) (id : string) (rating : Z)
         (st : App.State) (net : Net),
    outcome (updateSpriteRating base id rating None) net = inr tt ->
    issued (App.handleRatingChange base now id rating None st) net
    = [wrapped_request (base +:+ "/sprites/" +:+ id)
         (Some {| method := Some "PUT"; headers := json_headers;
                  body := Some (JObj [("rating", JNum rating)]);
                  signal := None |})]
    /\ exists st',
         outcome (App.handleRatingChange base now id rating None st) net = inr st'
         /\ length (App.sprites st') = length (App.sprites st)
         /\ forall s', In s' (App.sprites st') -> Sprite.id s' = id ->
              Sprite.rating s' = rating /\ Sprite.feedback s' = None.
Proof.
  intros base now id rating st net Hok. split.
  - apply issues_issued. unfold App.handleRatingChange, updateSpriteRating.
    repeat first [ apply issues_fetchWithErrorHandling | log_step ].
  - unfold outcome in *. unfold App.handleRatingChange, try_catch, bind at 1.
    destruct (updateSpriteRating base id rating None net []) as [[t | []] log];
      simpl in Hok; [discriminate |]. simpl.
    eexists. split; [reflexivity |]. simpl. split.
    + unfold App.update_rating. apply length_imap.
    + intros s' Hin Hid.
      apply list_elem_of_In, list_elem_of_lookup in Hin as [i Hi].
      rewrite update_rating_lookup_fmap in Hi.
      destruct (App.sprites st !! i) as [s |]; [| discriminate].
      simpl in Hi. injection Hi as <-.
      destruct (String.eqb_spec (Sprite.id s) id) as [He | Hne].
      * split; reflexivity.
      * contradiction.
Qed.

Lemma X16_gallery_rating_drops_local_feedback_witness :
  outcome (updateSpriteRating "http://localhost:5000" "1700000000002" 5 None)
          accepting_engine = inr tt
  /\ issued (App.handleRatingChange "http://localhost:5000" sample_clock
               "1700000000002" 5 None sample_app) accepting_engine
     = [wrapped_request ("http://localhost:5000" +:+ "/sprites/" +:+ "1700000000002")
          (Some {| method := Some "PUT"; headers := json_headers;
                   body := Some (JObj [("rating", JNum 5)]);
                   signal := None |})].
Proof.
  split; [reflexivity |].
  apply (X16_gallery_rating_drops_local_feedback "http://localhost:5000"
           sample_clock "1700000000002" 5 sample_app accepting_engine).
  reflexivity.
Defined.

(** ** The tags of the upload form *)

Lemma trimEnd_idem s : trimEnd (trimEnd s) = trimEnd s.
Proof.
  induction s as [| c s IH]; [reflexivity |]. simpl.
  destruct (trimEnd s) as [| a r] eqn:E.
  - destruct (is_js_space c) eqn:Hc; simpl; [reflexivity |]. rewrite Hc. reflexivity.
  - cbn [trimEnd]. cbn [trimEnd] in IH. rewrite IH. reflexivity.
Qed.

Lemma trimStart_clean s : starts_clean (trimStart s) = true.
Proof.
  induction s as [| c s IH]; [reflexivity |]. simpl.
  destruct (is_js_space c) eqn:Hc; [exact IH |]. simpl. rewrite Hc. reflexivity.
Qed.

Lemma trimEnd_clean s : starts_clean s = true -> starts_clean (trimEnd s) = true.
Proof.
  destruct s as [| c s]; [reflexivity |]. simpl. intros Hc.
  destruct (trimEnd s); [| exact Hc].
  destruct (is_js_space c) eqn:E; [reflexivity |]. simpl. rewrite E. reflexivity.
Qed.

Lemma trimStart_of_clean s : starts_clean s = true -> trimStart s = s.
Proof.
  destruct s as [| c s]; [reflexivity |]. simpl. intros Hc.
  apply negb_true_iff in Hc. rewrite Hc. reflexivity.
Qed.

(** Trimming twice is trimming once. *)
Lemma trim_idem s : trim (trim s) = trim s.
Proof.
  unfold trim.
  rewrite (trimStart_of_clean (trimEnd (trimStart s)))
    by apply trimEnd_clean, trimStart_clean.
  apply trimEnd_idem.
Qed.

Lemma has_tag_In tag tags : TrainingDataUpload.has_tag tag tags = true <-> In tag tags.
Proof.
  unfold TrainingDataUpload.has_tag. rewrite existsb_exists. split.
  - intros (t & Hin & He). apply String.eqb_eq in He. subst. exact Hin.
  - intros Hin. exists tag. split; [exact Hin | apply String.eqb_refl].
Qed.

Lemma without_tag_In tag tags t :
  In t (TrainingDataUpload.without_tag tag tags) <-> In t tags /\ t <> tag.
Proof.
  unfold TrainingDataUpload.without_tag. rewrite filter_In.
  rewrite negb_true_iff, String.eqb_neq. reflexivity.
Qed.

Lemma without_tag_absent tag tags :
  ~ In tag tags -> TrainingDataUpload.without_tag tag tags = tags.
Proof.
  unfold TrainingDataUpload.without_tag. induction tags as [| t tags IH]; [reflexivity |].
  intros Hno. simpl.
  destruct (String.eqb_spec t tag) as [-> | Hne]; simpl.
  - exfalso. apply Hno. left. reflexivity.
  - rewrite IH; [reflexivity |]. intros Hin. apply Hno. right. exact Hin.
Qed.

(** The two facts every style tag of the form satisfies. *)
Lemma tag_edit_keeps_tags_clean ev st :
  let tags := fun s => TrainingDataUpload.styleTags (TrainingDataUpload.formData s) in
  NoDup (tags st) /\ Forall (fun t => t <> EmptyString /\ trim t = t) (tags st) ->
  NoDup (tags (TrainingDataUpload.on_tag_event ev st))
  /\ Forall (fun t => t <> EmptyString /\ trim t = t)
            (tags (TrainingDataUpload.on_tag_event ev st)).
Proof.
  intros tags [Hnd Hall]. subst tags. destruct ev as [text | | tag]; simpl.
  - split; assumption.
  - unfold TrainingDataUpload.addStyleTag.
    destruct (truthy_string _) eqn:Ht; simpl; [| split; assumption].
    destruct (TrainingDataUpload.has_tag _ _) eqn:Hh; simpl; [split; assumption |].
    split.
    + apply NoDup_app. split; [exact Hnd |]. split; [| apply NoDup_singleton].
      intros t Hin Hin'. apply list_elem_of_singleton in Hin'. subst t.
      apply list_elem_of_In, has_tag_In in Hin. congruence.
    + apply Forall_app. split; [exact Hall |].
      constructor; [| constructor]. split.
      * apply truthy_string_true. exact Ht.
      * apply trim_idem.
  - split.
    + apply NoDup_ListNoDup, List.NoDup_filter, NoDup_ListNoDup. exact Hnd.
    + rewrite Forall_forall in *. intros t Hin.
      apply Hall. apply list_elem_of_In. apply list_elem_of_In in Hin.
      apply without_tag_In in Hin. apply Hin.
Qed.

(** X17. However the user types, adds and removes style tags, the list
    of style tags never holds a tag twice, never holds an empty tag, and
    every tag is stored without white space around it. *)
Theorem X17_style_tags_stay_distinct_and_trimmed :
  forall (evs : list TrainingDataUpload.TagEvent),
    NoDup (style_tags_after evs)
    /\ Forall (fun t => t <> EmptyString /\ trim t = t) (style_tags_after evs).
Proof.
  intros evs. unfold style_tags_after.
  induction evs as [| ev evs IH] using rev_ind.
  - simpl. split; constructor.
  - rewrite foldl_app. simpl. apply tag_edit_keeps_tags_clean. exact IH.
Qed.

Example trim_examples :
  trim "  pixel art  " = "pixel art"
  /\ trim (String "009"%char "anime" +:+ newline) = "anime"
  /\ trim "   " = EmptyString
  /\ split ","%char "data:image/png;base64,iVBORw0KGgo="
     = ["data:image/png;base64"; "iVBORw0KGgo="].
Proof. repeat split. Qed.

(** X18. [removeStyleTag] removes the given tag and nothing else; a form
    whose only style tag is removed can no longer be submitted: the
    button is disabled and [handleSubmit] sends nothing. *)
Theorem X18_removing_the_last_style_tag_blocks_upload :
  forall (tag : string) (st : TrainingDataUpload.State) (net : Net),
    let st' := TrainingDataUpload.removeStyleTag tag st in
    let tags := fun s => TrainingDataUpload.styleTags (TrainingDataUpload.formData s) in
    (forall t, In t (tags st') <-> In t (tags st) /\ t <> tag)
    /\ TrainingDataUpload.characterTags (TrainingDataUpload.formData st')
       = TrainingDataUpload.characterTags (TrainingDataUpload.formData st)
    /\ TrainingDataUpload.selectedImage st' = TrainingDataUpload.selectedImage st
    /\ (tags st = [tag] ->
        tags st' = []
        /\ TrainingDataUpload.submit_disabled st' = true
        /\ issued (TrainingDataUpload.handleSubmit st') net = []).
Proof.
  intros tag st net st' tags. subst st' tags. simpl.
  split; [intros t; apply without_tag_In |].
  split; [reflexivity |]. split; [reflexivity |].
  intros Hone. rewrite Hone.
  assert (TrainingDataUpload.without_tag tag [tag] = []) as Hempty.
  { unfold TrainingDataUpload.without_tag. simpl. rewrite String.eqb_refl. reflexivity. }
  split; [exact Hempty |].
  assert (TrainingDataUpload.submit_refused
            (TrainingDataUpload.removeStyleTag tag st) = true) as Href.
  { apply submit_refused_no_tags. simpl. rewrite Hone. exact Hempty. }
  split.
  - unfold TrainingDataUpload.submit_disabled. simpl.
    rewrite Hone, Hempty. apply orb_true_r.
  - destruct (handleSubmit_log (TrainingDataUpload.removeStyleTag tag st))
      as [[_ Hs] | [Hf _]].
    + apply silent_issued, Hs.
    + congruence.
Qed.

(** X19. Adding a tag and removing it again is a round trip: when the
    text typed, once trimmed, is not empty and not yet a style tag,
    [addStyleTag] appends exactly the trimmed text and clears the input,
    and [removeStyleTag] of that tag gives back the style tags there were
    before. *)
Theorem X19_add_then_remove_style_tag :
  forall (st : TrainingDataUpload.State),
    let tags := fun s => TrainingDataUpload.styleTags (TrainingDataUpload.formData s) in
    let tag := trim (TrainingDataUpload.currentStyleTag st) in
    tag <> EmptyString ->
    ~ In tag (tags st) ->
    tags (TrainingDataUpload.addStyleTag st) = tags st ++ [tag]
    /\ TrainingDataUpload.currentStyleTag (TrainingDataUpload.addStyleTag st)
       = EmptyString
    /\ tags (TrainingDataUpload.removeStyleTag tag (TrainingDataUpload.addStyleTag st))
       = tags st.
Proof.
  intros st tags tag Hne Hnew. subst tags tag.
  unfold TrainingDataUpload.addStyleTag.
  apply truthy_string_true in Hne. rewrite Hne.
  assert (TrainingDataUpload.has_tag (trim (TrainingDataUpload.currentStyleTag st))
            (TrainingDataUpload.styleTags (TrainingDataUpload.formData st)) = false)
    as Hh.
  { destruct (TrainingDataUpload.has_tag _ _) eqn:E; [| reflexivity].
    apply has_tag_In in E. contradiction. }
  rewrite Hh. simpl. split; [reflexivity |]. split; [reflexivity |].
  unfold TrainingDataUpload.without_tag. rewrite List.filter_app. simpl.
  rewrite String.eqb_refl. simpl. rewrite app_nil_r.
  apply without_tag_absent. exact Hnew.
Qed.

Lemma X19_add_then_remove_style_tag_witness :
  let st := TrainingDataUpload.typeStyleTag "  pixel art " filled_form in
  let tags := fun s => TrainingDataUpload.styleTags (TrainingDataUpload.formData s) in
  tags (TrainingDataUpload.addStyleTag st) = ["anime"; "fire"] ++ ["pixel art"]
  /\ TrainingDataUpload.currentStyleTag (TrainingDataUpload.addStyleTag st)
     = EmptyString
  /\ tags (TrainingDataUpload.removeStyleTag "pixel art"
             (TrainingDataUpload.addStyleTag st))
     = ["anime"; "fire"].
Proof.
  apply (X19_add_then_remove_style_tag
           (TrainingDataUpload.typeStyleTag "  pixel art " filled_form)).
  - discriminate.
  - simpl. intros [H | [H | []]]; discriminate.
Defined.

(** X20. [addStyleTag] ignores a text that is blank or, once trimmed,
    already a style tag: the whole state stays as it is, the text in the
    input included. *)
Theorem X20_blank_or_duplicate_style_tag_ignored :
  forall (st : TrainingDataUpload.State),
    trim (TrainingDataUpload.currentStyleTag st) = EmptyString
    \/ In (trim (TrainingDataUpload.currentStyleTag st))
          (TrainingDataUpload.styleTags (TrainingDataUpload.formData st)) ->
    TrainingDataUpload.addStyleTag st = st.
Proof.
  intros st [Hblank | Hdup]; unfold TrainingDataUpload.addStyleTag.
  - rewrite Hblank. reflexivity.
  - apply has_tag_In in Hdup. rewrite Hdup. rewrite andb_false_r. reflexivity.
Qed.

Lemma X20_blank_or_duplicate_style_tag_ignored_witness :
  TrainingDataUpload.addStyleTag (TrainingDataUpload.typeStyleTag " fire " filled_form)
  = TrainingDataUpload.typeStyleTag " fire " filled_form.
Proof.
  apply (X20_blank_or_duplicate_style_tag_ignored
           (TrainingDataUpload.typeStyleTag " fire " filled_form)).
  right. simpl. right. left. reflexivity.
Defined.

(** ** Submitting the upload form *)

(** X21. [handleSubmit] never throws and always ends with [isUploading]
    off.  For a form it accepts: an ok answer resets the form and drops
    the image, with no error; an answer that is not ok keeps form and
    image and reports "Failed to upload training data"; a rejected fetch
    keeps form and image and reports the rejection's message ("Upload
    failed" if what was thrown is not an Error). *)
Theorem X21_handleSubmit_outcomes :
  forall (st : TrainingDataUpload.State) (net : Net),
    TrainingDataUpload.submit_refused st = false ->
    exists st',
      outcome (TrainingDataUpload.handleSubmit st) net = inr st'
      /\ TrainingDataUpload.isUploading st' = false
      /\ match net (TrainingDataUpload.upload_request st) with
         | inr r =>
             if ok r
             then TrainingDataUpload.formData st' = TrainingDataUpload.empty_form
                  /\ TrainingDataUpload.selectedImage st' = None
                  /\ TrainingDataUpload.error st' = None
             else TrainingDataUpload.formData st' = TrainingDataUpload.formData st
                  /\ TrainingDataUpload.selectedImage st'
                     = TrainingDataUpload.selectedImage st
                  /\ TrainingDataUpload.error st'
                     = Some "Failed to upload training data"
         | inl t =>
             TrainingDataUpload.formData st' = TrainingDataUpload.formData st
             /\ TrainingDataUpload.selectedImage st'
                = TrainingDataUpload.selectedImage st
             /\ TrainingDataUpload.error st' = Some (message_or "Upload failed" t)
         end.
Proof.
  intros st net Hacc. unfold outcome, TrainingDataUpload.handleSubmit.
  rewrite Hacc. unfold bind, try_catch, fetch. cbv zeta.
  change {| url := TrainingDataUpload.upload_url;
            init := TrainingDataUpload.upload_options st |}
    with (TrainingDataUpload.upload_request st).
  destruct (net (TrainingDataUpload.upload_request st)) as [t | r]; simpl.
  - eexists. split; [reflexivity |]. repeat split.
  - destruct (ok r); simpl; eexists; (split; [reflexivity |]); repeat split.
Qed.

Lemma X21_handleSubmit_outcomes_witness :
  exists st',
    outcome (TrainingDataUpload.handleSubmit filled_form) accepting_engine = inr st'
    /\ TrainingDataUpload.isUploading st' = false
    /\ TrainingDataUpload.formData st' = TrainingDataUpload.empty_form
    /\ TrainingDataUpload.selectedImage st' = None
    /\ TrainingDataUpload.error st' = None.
Proof.
  destruct (X21_handleSubmit_outcomes filled_form accepting_engine eq_refl)
    as (st' & Hout & Hup & Hrest).
  exists st'. split; [exact Hout |]. split; [exact Hup |]. exact Hrest.
Defined.

(** ** The image of the upload form *)

Lemma split_without_separator sep s :
  occurs sep s = false -> split sep s = [s].
Proof.
  induction s as [| c s IH]; [reflexivity |]. simpl. intros H.
  apply orb_false_elim in H as [Hc Hs].
  rewrite Ascii.eqb_sym, Hc, (IH Hs). reflexivity.
Qed.

Lemma split_at_first_separator sep a b :
  occurs sep a = false -> split sep (a +:+ String sep b) = a :: split sep b.
Proof.
  induction a as [| c a IH]; simpl; intros H.
  - rewrite Ascii.eqb_refl. reflexivity.
  - apply orb_false_elim in H as [Hc Ha].
    rewrite Ascii.eqb_sym, Hc, (IH Ha). reflexivity.
Qed.

(** X22. The image kept by [handleImageUpload] is the part of the data
    URL after its comma: for a header and a payload that contain no comma
    (base64 never does), [base64Data (header , payload)] is the payload.  A
    result without any comma yields [undefined], and the form then
    refuses to submit. *)
Theorem X22_image_is_the_payload_of_the_data_url :
  forall (header payload : string) (st : TrainingDataUpload.State),
    occurs ","%char header = false ->
    occurs ","%char payload = false ->
    TrainingDataUpload.base64Data (header +:+ "," +:+ payload) = Some payload
    /\ TrainingDataUpload.selectedImage
         (TrainingDataUpload.handleImageUpload
            (Some (header +:+ "," +:+ payload)) st) = Some payload
    /\ TrainingDataUpload.base64Data payload = None
    /\ TrainingDataUpload.submit_refused
         (TrainingDataUpload.handleImageUpload (Some payload) st) = true.
Proof.
  intros header payload st Hh Hp.
  assert (TrainingDataUpload.base64Data (header +:+ "," +:+ payload) = Some payload)
    as E1.
  { unfold TrainingDataUpload.base64Data.
    change ("," +:+ payload) with (String ","%char payload).
    rewrite (split_at_first_separator _ _ _ Hh), (split_without_separator _ _ Hp).
    reflexivity. }
  assert (TrainingDataUpload.base64Data payload = None) as E2.
  { unfold TrainingDataUpload.base64Data.
    rewrite (split_without_separator _ _ Hp). reflexivity. }
  split; [exact E1 |]. split; [simpl; exact E1 |]. split; [exact E2 |].
  unfold TrainingDataUpload.submit_refused. simpl. rewrite E2. reflexivity.
Qed.

Lemma X22_image_is_the_payload_of_the_data_url_witness :
  TrainingDataUpload.base64Data ("data:image/png;base64" +:+ "," +:+ "iVBORw0KGgo=")
  = Some "iVBORw0KGgo=".
Proof.
  apply (X22_image_is_the_payload_of_the_data_url
           "data:image/png;base64" "iVBORw0KGgo=" filled_form); reflexivity.
Defined.

(** ** The tool panel *)

Lemma executeTool_keeps_selection st net :
  exists st', outcome (MCPInterface.executeTool st) net = inr st'
              /\ MCPInterface.selectedTool st' = MCPInterface.selectedTool st
              /\ MCPInterface.toolParams st' = MCPInterface.toolParams st.
Proof.
  destruct (decide (MCPInterface.selectedTool st = EmptyString)) as [He | Hne].
  - exists st. unfold outcome. rewrite (executeTool_nothing_selected _ _ _ He).
    repeat split.
  - destruct (executeTool_selected st net Hne) as (_ & st' & H1 & H2 & H3 & _).
    exists st'. repeat split; assumption.
Qed.

Lemma on_event_keeps_params_in_schema ev st :
  params_in_schema st -> params_in_schema (MCPInterface.on_event ev st).
Proof.
  intros Hinv. destruct ev as [i | p v | net]; simpl.
  - destruct (MCPInterface.tools !! i) as [t |]; [| exact Hinv].
    intros p [x Hx]. simpl in Hx. rewrite lookup_empty in Hx. discriminate.
  - destruct (MCPInterface.selectedToolData st) as [t |] eqn:Ht; [| exact Hinv].
    destruct (existsb _ _) eqn:Hex; [| exact Hinv].
    intros q Hq. exists t. split; [exact Ht |].
    destruct (decide (p = q)) as [<- | Hne].
    + apply existsb_exists in Hex as ([k cfg] & Hin & Hk).
      simpl in Hk. apply String.eqb_eq in Hk. subst k.
      apply in_map_iff. exists (p, cfg). split; [reflexivity | exact Hin].
    + simpl in Hq. rewrite lookup_insert_ne in Hq by exact Hne.
      destruct (Hinv q Hq) as (t' & Ht' & Hin). congruence.
  - destruct (MCPInterface.selectedToolData st) as [t |] eqn:Ht; [| exact Hinv].
    destruct (executeTool_keeps_selection st net) as (st' & -> & Hsel & Hpar).
    intros q Hq. rewrite Hpar in Hq. destruct (Hinv q Hq) as (t' & Ht' & Hin).
    exists t'. split; [| exact Hin].
    unfold MCPInterface.selectedToolData in *. rewrite Hsel. exact Ht'.
Qed.

(** X23. In every state the user can reach by picking tools, filling in
    the inputs shown and executing, each parameter held in the state --
    and so each parameter sent in an invocation -- is one the selected tool
    declares; picking a tool discards the parameters typed for another. *)
Theorem X23_only_declared_parameters_are_sent :
  forall (evs : list MCPInterface.Event),
    params_in_schema (MCPInterface.run_events evs)
    /\ forall i t, MCPInterface.tools !! i = Some t ->
         MCPInterface.toolParams
           (MCPInterface.on_event (MCPInterface.ClickTool i)
                                  (MCPInterface.run_events evs)) = ∅.
Proof.
  intros evs. split.
  - unfold MCPInterface.run_events.
    induction evs as [| ev evs IH] using rev_ind.
    + intros p [x Hx]. simpl in Hx. rewrite lookup_empty in Hx. discriminate.
    + rewrite foldl_app. simpl. apply on_event_keeps_params_in_schema, IH.
  - intros i t Hi. simpl. rewrite Hi. reflexivity.
Qed.

(** X24. [executeTool] never throws and always ends with [isExecuting]
    off.  With a tool selected, a rejected fetch is reported with its
    message, or as "Execution failed" when the thrown value is not an
    Error, and a body of an ok answer that cannot be read as JSON is
    reported alike; in both cases the previous result stays in place. *)
Theorem X24_executeTool_reports_rejections :
  forall (st : MCPInterface.State) (net : Net),
    MCPInterface.selectedTool st <> EmptyString ->
    exists st',
      outcome (MCPInterface.executeTool st) net = inr st'
      /\ MCPInterface.isExecuting st' = false
      /\ (forall t, net (mcp_request st) = inl t ->
            MCPInterface.error st' = Some (message_or "Execution failed" t)
            /\ MCPInterface.result st' = MCPInterface.result st)
      /\ (forall r t, net (mcp_request st) = inr r -> ok r = true ->
            json r = inl t ->
            MCPInterface.error st' = Some (message_or "Execution failed" t)
            /\ MCPInterface.result st' = MCPInterface.result st).
Proof.
  intros st net Hsel. apply truthy_string_true in Hsel.
  unfold outcome, MCPInterface.executeTool, mcp_request. rewrite Hsel. simpl.
  unfold bind, try_catch, fetch. cbv zeta.
  destruct (net _) as [t | r]; simpl.
  - eexists. split; [reflexivity |]. split; [reflexivity |].
    split; [intros t' [= ->]; split; reflexivity | intros r t' [=]].
  - destruct (ok r) eqn:Hok; simpl.
    + unfold await. destruct (json r) as [t | data] eqn:Hjson; simpl;
        eexists; (split; [reflexivity |]); (split; [reflexivity |]);
        (split; [intros t' [=] |]); intros r' t' [= <-] _ Hj;
        rewrite Hjson in Hj; [| discriminate].
      injection Hj as ->. split; reflexivity.
    + eexists. split; [reflexivity |]. split; [reflexivity |].
      split; [intros t' [=] |]. intros r' t' [= <-] Hok'. congruence.
Qed.

Lemma X24_executeTool_reports_rejections_witness :
  exists st',
    outcome (MCPInterface.executeTool enhance_prompt_selected) rejects_with_value
    = inr st'
    /\ MCPInterface.isExecuting st' = false
    /\ MCPInterface.error st' = Some "Execution failed"
    /\ MCPInterface.result st' = JNull.
Proof.
  destruct (X24_executeTool_reports_rejections enhance_prompt_selected
              rejects_with_value) as (st' & Hout & Hex & Hrej & _);
    [discriminate |].
  exists st'. split; [exact Hout |]. split; [exact Hex |].
  exact (Hrej ThrownValue eq_refl).
Defined.

(** ** The gallery *)

Section GalleryOrder.
Variable getTime : string -> Z.

Lemma insert_by_perm cmp x l :
  Permutation (SpriteGallery.insert_by cmp x l) (x :: l).
Proof.
  induction l as [| y l IH]; simpl; [reflexivity |].
  destruct (cmp x y <=? 0)%Z; [reflexivity |].
  rewrite IH. apply perm_swap.
Qed.

Lemma sort_by_perm cmp l : Permutation (SpriteGallery.sort_by cmp l) l.
Proof.
  unfold SpriteGallery.sort_by. induction l as [| x l IH]; simpl; [reflexivity |].
  rewrite insert_by_perm, IH. reflexivity.
Qed.

Lemma compare_flip order a b :
  SpriteGallery.compare getTime order b a = (- SpriteGallery.compare getTime order a b)%Z.
Proof. destruct order; simpl; lia. Qed.

Lemma compare_trans order a b c :
  (SpriteGallery.compare getTime order a b <= 0)%Z ->
  (SpriteGallery.compare getTime order b c <= 0)%Z ->
  (SpriteGallery.compare getTime order a c <= 0)%Z.
Proof. destruct order; simpl; lia. Qed.

Lemma insert_by_sorted order x l :
  let before := fun a b => (SpriteGallery.compare getTime order a b <= 0)%Z in
  StronglySorted before l ->
  StronglySorted before (SpriteGallery.insert_by (SpriteGallery.compare getTime order) x l).
Proof.
  intros before. induction l as [| y l IH]; intros Hs; simpl.
  - constructor; constructor.
  - inversion Hs as [| ? ? Hl Hy]; subst.
    destruct (SpriteGallery.compare getTime order x y <=? 0)%Z eqn:E.
    + apply Z.leb_le in E. constructor; [exact Hs |].
      constructor; [exact E |].
      rewrite Forall_forall in *. intros z Hz.
      apply (compare_trans order x y z E), Hy, Hz.
    + apply Z.leb_gt in E. constructor; [apply IH, Hl |].
      rewrite Forall_forall in *. intros z Hz.
      apply list_elem_of_In in Hz.
      apply (Permutation_in _ (insert_by_perm _ x l)) in Hz.
      destruct Hz as [<- | Hz].
      * unfold before. rewrite compare_flip. lia.
      * apply Hy, list_elem_of_In, Hz.
Qed.

Lemma sort_by_sorted order l :
  StronglySorted (fun a b => (SpriteGallery.compare getTime order a b <= 0)%Z)
                 (SpriteGallery.sort_by (SpriteGallery.compare getTime order) l).
Proof.
  unfold SpriteGallery.sort_by. induction l as [| x l IH]; simpl.
  - constructor.
  - apply insert_by_sorted, IH.
Qed.

Lemma includes_empty s : includes EmptyString s = true.
Proof. destruct s; reflexivity. Qed.

(** X25. The gallery shows exactly the sprites that pass the search and
    rating filters, each as often as it is in the list: the shown list is
    a rearrangement of the filtered one.  With an empty search box and no
    rating filter nothing is hidden. *)
Theorem X25_gallery_shows_exactly_the_matching_sprites :
  forall (st : SpriteGallery.State) (sprites : list Sprite.t),
    Permutation (SpriteGallery.filteredSprites getTime st sprites)
                (List.filter (SpriteGallery.shown st) sprites)
    /\ (forall s, In s (SpriteGallery.filteredSprites getTime st sprites)
                  <-> In s sprites /\ SpriteGallery.shown st s = true)
    /\ (SpriteGallery.searchTerm st = EmptyString ->
        SpriteGallery.filterRating st = None ->
        Permutation (SpriteGallery.filteredSprites getTime st sprites) sprites).
Proof.
  intros st sprites. unfold SpriteGallery.filteredSprites.
  split; [apply sort_by_perm |]. split.
  - intros s. rewrite <- filter_In. split; apply Permutation_in.
    + apply sort_by_perm.
    + symmetry. apply sort_by_perm.
  - intros Hterm Hrate. rewrite sort_by_perm.
    assert (forall s, SpriteGallery.shown st s = true) as Hall.
    { intros s. unfold SpriteGallery.shown, SpriteGallery.matchesSearch,
        SpriteGallery.matchesRating.
      rewrite Hterm, Hrate. simpl. rewrite includes_empty. reflexivity. }
    clear Hterm Hrate. induction sprites as [| s l IH]; simpl; [reflexivity |].
    rewrite Hall. constructor. exact IH.
Qed.

(** X26. The gallery is shown in the chosen order: every sprite comes
    before all those the comparator ranks after it -- for "rating" no
    sprite is followed by a better rated one, for "newest" none by a more
    recent one, for "oldest" none by an older one. *)
Theorem X26_gallery_is_sorted :
  forall (st : SpriteGallery.State) (sprites : list Sprite.t),
    StronglySorted
      (fun a b =>
         match SpriteGallery.sortBy st with
         | SpriteGallery.rating => (Sprite.rating b <= Sprite.rating a)%Z
         | SpriteGallery.newest =>
             (getTime (Sprite.createdAt b) <= getTime (Sprite.createdAt a))%Z
         | SpriteGallery.oldest =>
             (getTime (Sprite.createdAt a) <= getTime (Sprite.createdAt b))%Z
         end)
      (SpriteGallery.filteredSprites getTime st sprites).
Proof.
  intros st sprites. unfold SpriteGallery.filteredSprites.
  pose proof (sort_by_sorted (SpriteGallery.sortBy st)
                (List.filter (SpriteGallery.shown st) sprites)) as Hs.
  induction Hs as [| a l Hl IH Ha]; constructor; [exact IH |].
  rewrite Forall_forall in *. intros b Hb. specialize (Ha b Hb).
  destruct (SpriteGallery.sortBy st); simpl in Ha; lia.
Qed.

End GalleryOrder.

Section GalleryDelete.
Variable base : string.

(** X27. Nothing is deleted without the user's consent: when the
    [confirm] dialog is declined, [handleDeleteSprite] sends no request
    and leaves the state as it is.  When it is accepted, exactly one
    DELETE request for that sprite is sent, the handler never throws, the
    delete marker is cleared at the end, and the list is refreshed exactly
    when the call succeeded (an alert is shown otherwise). *)
Theorem X27_delete_needs_confirmation :
  forall (id : string) (st : SpriteGallery.State) (net : Net),
    SpriteGallery.handleDeleteSprite base false id st net []
    = (inr (st, SpriteGallery.Cancelled), [])
    /\ issued (SpriteGallery.handleDeleteSprite base true id st) net
       = [wrapped_request (base +:+ "/sprites/" +:+ id) (bodyless "DELETE")]
    /\ outcome (SpriteGallery.handleDeleteSprite base true id st) net
       = inr (SpriteGallery.set_deletingId None st,
              match outcome (deleteSprite base id) net with
              | inr _ => SpriteGallery.Refreshed
              | inl _ => SpriteGallery.Alerted
              end).
Proof.
  intros id st net. split; [reflexivity |]. split.
  - apply issues_issued. unfold SpriteGallery.handleDeleteSprite, deleteSprite. simpl.
    repeat first [ apply issues_fetchWithErrorHandling | log_step ].
  - unfold outcome, SpriteGallery.handleDeleteSprite. simpl.
    unfold bind at 1. unfold try_catch. unfold bind at 1.
    destruct (deleteSprite base id net []) as [[t | u] log]; reflexivity.
Qed.

End GalleryDelete.

(** ** The generator *)

Section GeneratorForm.
Variable base : string.
Variable now_ms now_iso : string.
Variable chat_time : nat -> string.
Variable as_string : option Json -> string.

(** X28. [SpriteGenerator.handleSubmit] sends nothing and changes nothing
    for a character that is blank once trimmed.  Otherwise it sends the
    one request of [generateSprite], never throws, keeps the form and
    ends with [isGenerating] off, and what it hands on is decided by the
    generation.  When [generateSprite] returns a result whose
    [image_base64] can be read, the image is displayed, the error is
    cleared, and exactly one sprite is handed to [onSpriteGenerated]:
    the form's character, pose and style with that image, the clock's
    reading as id, rating 0 and no feedback.  When [generateSprite]
    throws, or returns null so that reading [image_base64] throws, no
    sprite is handed on, the image displayed before stays, and [error]
    holds the message of what was thrown ("Failed to generate sprite"
    when it is not an Error). *)
Theorem X28_generator_submit :
  forall (st : SpriteGenerator.State) (net : Net),
    (trim (GenerateRequest.character (SpriteGenerator.formData st)) = EmptyString ->
       SpriteGenerator.handleSubmit base now_ms now_iso as_string st net []
       = (inr (st, None), []))
    /\ (trim (GenerateRequest.character (SpriteGenerator.formData st)) <> EmptyString ->
        issued (SpriteGenerator.handleSubmit base now_ms now_iso as_string st) net
        = [wrapped_request (base +:+ "/image")
             (post (JObj [("prompt",
                           JStr (generateSprite_prompt (SpriteGenerator.formData st)))]))]
        /\ exists st' handed,
             outcome (SpriteGenerator.handleSubmit base now_ms now_iso as_string st) net
             = inr (st', handed)
             /\ SpriteGenerator.isGenerating st' = false
             /\ SpriteGenerator.formData st' = SpriteGenerator.formData st
             /\ SpriteGenerator.chatHistory st' = SpriteGenerator.chatHistory st
             /\ match
                  match outcome (generateSprite base (SpriteGenerator.formData st)) net
                  with
                  | inl t => inl t
                  | inr result => member "image_base64" result
                  end
                with
                | inr image =>
                    handed
                    = Some
                        {| Sprite.id := now_ms;
                           Sprite.character :=
                             GenerateRequest.character (SpriteGenerator.formData st);
                           Sprite.pose :=
                             GenerateRequest.pose (SpriteGenerator.formData st);
                           Sprite.style :=
                             GenerateRequest.style (SpriteGenerator.formData st);
                           Sprite.imageBase64 := as_string image;
                           Sprite.rating := 0;
                           Sprite.feedback := None;
                           Sprite.createdAt := now_iso;
                           Sprite.updatedAt := None |}
                    /\ SpriteGenerator.generatedSprite st' = Some (as_string image)
                    /\ SpriteGenerator.error st' = None
                | inl t =>
                    handed = None
                    /\ SpriteGenerator.generatedSprite st'
                       = SpriteGenerator.generatedSprite st
                    /\ SpriteGenerator.error st'
                       = Some (message_or "Failed to generate sprite" t)
                end).
Proof.
  intros st net. split.
  - intros Hblank. unfold SpriteGenerator.handleSubmit. rewrite Hblank. reflexivity.
  - intros Hchar. apply truthy_string_true in Hchar. split.
    + apply issues_issued. unfold SpriteGenerator.handleSubmit. rewrite Hchar. simpl.
      repeat first [ apply issues_generateSprite | log_step ].
    + unfold outcome, SpriteGenerator.handleSubmit. rewrite Hchar. simpl.
      unfold bind at 1. unfold try_catch. unfold bind at 1.
      destruct (generateSprite base (SpriteGenerator.formData st) net [])
        as [[t | result] log]; simpl.
      * eexists _, _. split; [reflexivity |]. repeat split.
      * unfold bind, await. destruct (member "image_base64" result) as [t | image]; simpl.
        -- eexists _, _. split; [reflexivity |]. repeat split.
        -- eexists _, _. split; [reflexivity |]. repeat split.
Qed.

(** X29. [handleChatSubmit] does nothing for a blank message or while an
    answer is pending.  Otherwise it never throws and the chat grows by
    exactly two messages, the user's text as typed followed by one message
    of the bot -- the model's answer, or an apology when the call failed --
    with the input cleared and the loading flag off; earlier messages are
    kept. *)
Theorem X29_chat_grows_by_question_and_answer :
  forall (st : SpriteGenerator.State) (net : Net),
    (trim (SpriteGenerator.currentChatMessage st) = EmptyString
     \/ SpriteGenerator.isChatLoading st = true ->
       SpriteGenerator.handleChatSubmit base chat_time as_string st net []
       = (inr st, []))
    /\ (trim (SpriteGenerator.currentChatMessage st) <> EmptyString ->
        SpriteGenerator.isChatLoading st = false ->
        length (issued (SpriteGenerator.handleChatSubmit base chat_time
                          as_string st) net) = 1
        /\ exists st' question answer,
          outcome (SpriteGenerator.handleChatSubmit base chat_time as_string st) net
          = inr st'
          /\ SpriteGenerator.chatHistory st'
             = SpriteGenerator.chatHistory st ++ [question; answer]
          /\ SpriteGenerator.sender question = "user"
          /\ SpriteGenerator.message question = SpriteGenerator.currentChatMessage st
          /\ SpriteGenerator.sender answer = "bot"
          /\ (forall t, outcome (sendChat base (SpriteGenerator.currentChatMessage st)) net
                        = inl t ->
                        SpriteGenerator.message answer
                        = SpriteGenerator.chat_error_message)
          /\ SpriteGenerator.currentChatMessage st' = EmptyString
          /\ SpriteGenerator.isChatLoading st' = false).
Proof.
  intros st net. split.
  - intros [Hblank | Hload]; unfold SpriteGenerator.handleChatSubmit.
    + rewrite Hblank. reflexivity.
    + rewrite Hload, orb_true_r. reflexivity.
  - intros Hmsg Hload. apply truthy_string_true in Hmsg. split.
    + erewrite issues_issued; [reflexivity |].
      unfold SpriteGenerator.handleChatSubmit, sendChat. rewrite Hmsg, Hload. simpl.
      repeat first [ apply issues_fetchWithErrorHandling | log_step ].
    + unfold outcome, SpriteGenerator.handleChatSubmit. rewrite Hmsg, Hload. simpl.
      unfold bind at 1. unfold try_catch. unfold bind at 1.
      destruct (sendChat base (SpriteGenerator.currentChatMessage st) net [])
        as [[t | reply] log]; simpl;
        eexists _, _, _; (split; [reflexivity |]); simpl;
        rewrite <- app_assoc; repeat split; intros; discriminate.
Qed.

End GeneratorForm.

Lemma X28_generator_submit_witness :
  trim (GenerateRequest.character (SpriteGenerator.formData sample_generator))
  <> EmptyString
  /\ exists st' sprite,
       outcome (SpriteGenerator.handleSubmit "http://localhost:5000" "1700000000000"
                  "2024-01-01T00:00:00.000Z" string_member sample_generator)
               image_backend
       = inr (st', Some sprite)
       /\ Sprite.imageBase64 sprite = "iVBORw0KGgo="
       /\ Sprite.rating sprite = 0%Z
       /\ SpriteGenerator.generatedSprite st' = Some "iVBORw0KGgo=".
Proof.
  assert (trim (GenerateRequest.character (SpriteGenerator.formData sample_generator))
          <> EmptyString) as H by (vm_compute; discriminate).
  split; [exact H |].
  destruct (proj2 (proj2 (X28_generator_submit "http://localhost:5000"
                            "1700000000000" "2024-01-01T00:00:00.000Z"
                            string_member sample_generator image_backend) H))
    as (st' & handed & Hout & _ & _ & _ & Hcase).
  vm_compute in Hcase. destruct Hcase as (-> & Himage & _).
  eexists st', _. split; [exact Hout |]. split; [reflexivity |].
  split; [reflexivity | exact Himage].
Defined.

Lemma X29_chat_grows_by_question_and_answer_witness :
  trim (SpriteGenerator.currentChatMessage sample_generator) <> EmptyString
  /\ SpriteGenerator.isChatLoading sample_generator = false
  /\ length (issued (SpriteGenerator.handleChatSubmit "http://localhost:5000"
                       (fun n => pretty n) string_member sample_generator)
                    always_times_out) = 1.
Proof.
  assert (trim (SpriteGenerator.currentChatMessage sample_generator) <> EmptyString)
    as H by (vm_compute; discriminate).
  split; [exact H |]. split; [reflexivity |].
  exact (proj1 (proj2 (X29_chat_grows_by_question_and_answer "http://localhost:5000"
                         (fun n => pretty n) string_member
                         sample_generator always_times_out) H eq_refl)).
Defined.
